(** * twc3-modbus: the file-backed Modbus RTU slave of [tesla.py]

    A shallow embedding of the protocol and data layer of [tesla.py]
    (class [FileBasedModbusDataStore]): the CRC16 of Modbus RTU, the
    rendering of a response frame, the lookup of register values in a
    per-address response file, and the read dispatch of [getValues].

    Python integers are unbounded, so they are modelled as [Z]; the
    operators [>>], [&] and [^] are [Z.shiftr], [Z.land] and [Z.lxor], which
    agree with Python on negative numbers too (two's complement with
    infinitely many sign bits). *)

From Stdlib Require Import ZArith Lia Ascii String List.
From Stdlib Require Import DecimalString DecimalZ DecimalPos.
From stdpp Require Import base option list strings gmap.

Local Open Scope Z_scope.

(** ** The CRC of [calculate_crc] *)

Module Crc.

(** One turn of the inner loop of [calculate_crc]:
    [if crc & 0x0001: crc = (crc >> 1) ^ 0xA001 else: crc >>= 1]. *)
Definition crc_shift (crc : Z) : Z :=
  if Z.land crc 0x0001 =? 0
  then Z.shiftr crc 1
  else Z.lxor (Z.shiftr crc 1) 0xA001.

(** The body of the outer loop: [crc ^= x], then [range(8)] turns. *)
Definition crc_update (crc x : Z) : Z :=
  Nat.iter 8 crc_shift (Z.lxor crc x).

(** [calculate_crc(self, data)]: the accumulator starts at [0xFFFF]. *)
Definition calculate_crc (data : list Z) : Z :=
  fold_left crc_update data 0xFFFF.

End Crc.

(** ** The reference CRC16 of Modbus RTU, as the specification words it

  A 16-bit accumulator: a byte is exclusive-ored into its low eight bits,
  leaving the high eight bits alone; then eight rounds, each of which
  halves the accumulator and exclusive-ors the polynomial [0xA001] in when
  the bit shifted out was set. *)

Module CrcReference.

Definition xor_low8 (acc byte : Z) : Z :=
  256 * (acc / 256) + Z.lxor (acc mod 256) byte.

Definition round (acc : Z) : Z :=
  if Z.odd acc then Z.lxor (acc / 2) 0xA001 else acc / 2.

Fixpoint rounds (n : nat) (acc : Z) : Z :=
  match n with
  | O => acc
  | S n' => rounds n' (round acc)
  end.

Fixpoint crc16_from (acc : Z) (bytes : list Z) : Z :=
  match bytes with
  | [] => acc
  | b :: rest => crc16_from (rounds 8 (xor_low8 acc b)) rest
  end.

Definition crc16 (bytes : list Z) : Z := crc16_from 0xFFFF bytes.

End CrcReference.

(** ** The Python built-ins the program uses

    Strings are [string]s of Latin-1 code points; lists are [list]s. *)

Module Py.
Local Open Scope string_scope.
Local Open Scope Z_scope.

Definition code (c : ascii) : Z := Z.of_N (N_of_ascii c).

(** [str.isspace] on one code point below 256: the characters that
    [str.strip()] removes. *)
Definition isspace (c : ascii) : bool :=
  let n := code c in
  ((9 <=? n) && (n <=? 13)) || ((28 <=? n) && (n <=? 32))
  || (n =? 0x85) || (n =? 0xA0).

Fixpoint lstrip (s : string) : string :=
  match s with
  | EmptyString => EmptyString
  | String c rest => if isspace c then lstrip rest else s
  end.

Fixpoint rstrip (s : string) : string :=
  match s with
  | EmptyString => EmptyString
  | String c rest =>
      match rstrip rest with
      | EmptyString => if isspace c then EmptyString else String c EmptyString
      | kept => String c kept
      end
  end.

(** [s.strip()] *)
Definition strip (s : string) : string := rstrip (lstrip s).

(** [s.startswith(prefix)] *)
Fixpoint startswith (prefix s : string) : bool :=
  match prefix, s with
  | EmptyString, _ => true
  | String p prefix', String c s' =>
      if Ascii.eqb p c then startswith prefix' s' else false
  | String _ _, EmptyString => false
  end.

(** The value of a character as a digit, as CPython's table
    [_PyLong_DigitValue] gives it: ['0'-'9'] are 0-9, letters of either
    case are 10-35, anything else is no digit. *)
Definition digit_value (c : ascii) : option Z :=
  let n := code c in
  if (48 <=? n) && (n <=? 57) then Some (n - 48)
  else if (97 <=? n) && (n <=? 122) then Some (n - 97 + 10)
  else if (65 <=? n) && (n <=? 90) then Some (n - 65 + 10)
  else None.

Definition hex_digit (c : ascii) : option Z :=
  match digit_value c with
  | Some d => if d <? 16 then Some d else None
  | None => None
  end.

(** What [int()] does to a [str] before it parses it: code points below
    127 stay, white space above becomes a blank, the rest (no decimal
    digit lives between 127 and 255) becomes ['?']. *)
Definition to_ascii_digit_or_space (c : ascii) : ascii :=
  if code c <? 127 then c
  else if isspace c then " "%char else "?"%char.

Fixpoint transform (s : string) : string :=
  match s with
  | EmptyString => EmptyString
  | String c rest => String (to_ascii_digit_or_space c) (transform rest)
  end.

(** [Py_ISSPACE]: the white space of the C locale. *)
Definition c_isspace (c : ascii) : bool :=
  let n := code c in ((9 <=? n) && (n <=? 13)) || (n =? 32).

Fixpoint skip_spaces (s : string) : string :=
  match s with
  | EmptyString => EmptyString
  | String c rest => if c_isspace c then skip_spaces rest else s
  end.

(** The digit scan of [int(s, 16)]: digits and single underscores between
    them. [prev_us] tells that the character before was an underscore, [any]
    that a character was consumed. The result is the value read and the text
    left, or [None] for a doubled or trailing underscore. *)
Fixpoint scan_hex (s : string) (prev_us any : bool) (acc : Z)
  : option (Z * bool * string) :=
  match s with
  | EmptyString => if prev_us then None else Some (acc, any, EmptyString)
  | String c rest =>
      if Ascii.eqb c "_"%char then
        if prev_us then None else scan_hex rest true true acc
      else
        match hex_digit c with
        | Some d => scan_hex rest false true (16 * acc + d)
        | None => if prev_us then None else Some (acc, any, s)
        end
  end.

(** [int(s, 16)], [None] standing for [ValueError]: optional white space,
    an optional sign, an optional prefix [0x] or [0X] that one underscore may
    follow, at least one digit, optional white space, and nothing else. *)
Definition int16 (s : string) : option Z :=
  let s1 := skip_spaces (transform s) in
  let '(sign, s2) :=
    match s1 with
    | String "+" rest => (1, rest)
    | String "-" rest => (-1, rest)
    | _ => (1, s1)
    end in
  let s3 :=
    match s2 with
    | String "0" (String "x" rest) | String "0" (String "X" rest) =>
        match rest with
        | String "_" rest' => rest'
        | _ => rest
        end
    | _ => s2
    end in
  if startswith "_" s3 then None
  else
    match scan_hex s3 false false 0 with
    | Some (v, true, rest) =>
        match skip_spaces rest with
        | EmptyString => Some (sign * v)
        | String _ _ => None
        end
    | _ => None
    end.

(** [str(n)] for an integer [n] *)
Definition str (n : Z) : string := NilZero.string_of_int (Z.to_int n).

(** [len(l)] *)
Definition len {A} (l : list A) : Z := Z.of_nat (length l).

(** [l[:n]]: a negative [n] counts from the end. *)
Definition slice_to {A} (l : list A) (n : Z) : list A :=
  if n <? 0 then take (Z.to_nat (len l + n)) l else take (Z.to_nat n) l.

(** [sep.join(parts)] *)
Fixpoint join (sep : string) (parts : list string) : string :=
  match parts with
  | [] => EmptyString
  | [p] => p
  | p :: rest => p ++ sep ++ join sep rest
  end.

Fixpoint endswith_char (c : ascii) (s : string) : bool :=
  match s with
  | EmptyString => false
  | String d EmptyString => Ascii.eqb c d
  | String _ rest => endswith_char c rest
  end.

(** [os.path.join(a, b)] of [posixpath] *)
Definition os_path_join (a b : string) : string :=
  if startswith "/" b then b
  else if String.eqb a EmptyString || endswith_char "/" a then a ++ b
  else a ++ "/" ++ b.

Definition upper_hex_char (d : Z) : ascii :=
  ascii_of_N (Z.to_N (if d <? 10 then 48 + d else 55 + d)).

(** The digits of [n >= 0] in base 16, upper case, most significant first;
    [fuel] bounds the number of digits. *)
Fixpoint upper_hex_fuel (fuel : nat) (n : Z) (acc : string) : string :=
  match fuel with
  | O => acc
  | S fuel' =>
      let acc' := String (upper_hex_char (n mod 16)) acc in
      if n / 16 =? 0 then acc' else upper_hex_fuel fuel' (n / 16) acc'
  end.

Definition upper_hex (n : Z) : string :=
  upper_hex_fuel (S (Z.to_nat (Z.log2 n))) n EmptyString.

(** [f'{x:02X}']: upper-case hexadecimal, padded with zeros to two
    characters, the sign of a negative number counting as one of them. *)
Definition format_02X (x : Z) : string :=
  if x <? 0 then "-" ++ upper_hex (- x)
  else
    let digits := upper_hex x in
    if (String.length digits <? 2)%nat then "0" ++ digits else digits.

End Py.

(** ** Effects: exceptions, the log, and the calls that are observed

    A method returns a value or raises; on the way it appends records to the
    log. The trace also records each call of [format_modbus_response] and
    of the inherited [getValues], so that "is never invoked" can be said. *)

Inductive exn : Type :=
| FileNotFoundError (path : string)
| OSError (path : string)              (* any other failure of [open] *)
| ValueError (literal : string).       (* [int(literal, 16)] failed *)

Inductive level : Type := INFO | WARNING | ERROR.

(** The log messages of the class, one constructor per f-string, with the
    values the f-string interpolates. *)
Inductive message : Type :=
| ReceivedRequest (fx address count : Z)
| InsufficientData (register_address count available : Z)
| RequestForRegister (register_address count available : Z)
| NoResponseFile (register_address : Z)
| ErrorParsingFile (file_path : string) (e : exn)
| FullResponse (full_response : string)
| FullResponseNotSent (full_response : string).

Inductive event : Type :=
| Log (lvl : level) (msg : message)
| CallFormat (slave_address function_code : Z) (values : list Z)
| CallSuper (fx address count : Z).

Inductive outcome (A : Type) : Type :=
| Returns (a : A)
| Raises (e : exn).
Arguments Returns {A} a.
Arguments Raises {A} e.

Definition M (A : Type) : Type := (list event * outcome A)%type.

#[export] Instance M_ret : MRet M := λ A a, ([], Returns a).

#[export] Instance M_bind : MBind M := λ A B f m,
  match m with
  | (t, Returns a) => let '(t', r) := f a in (t ++ t', r)
  | (t, Raises e) => (t, Raises e)
  end.

Definition tell (e : event) : M unit := ([e], Returns tt).

Definition raise {A} (e : exn) : M A := ([], Raises e).

(** A call of a method of the library that the log of this class does not
    follow: only its outcome counts. *)
Definition lift {A} (r : outcome A) : M A := ([], r).

(** [try: body except ...: handler]: [handler e] is [None] when no
    [except] clause matches [e], which then propagates. *)
Definition try_except {A} (body : M A) (handler : exn → option (M A)) : M A :=
  match body with
  | (t, Returns a) => (t, Returns a)
  | (t, Raises e) =>
      match handler e with
      | Some h => let '(t', r) := h in (t ++ t', r)
      | None => (t, Raises e)
      end
  end.

Definition trace {A} (m : M A) : list event := fst m.
Definition result {A} (m : M A) : outcome A := snd m.

(** ** The response directory

    A path names no file, a file that [open] refuses for another reason
    than absence, or a text file given by the lines that iterating over it
    yields (each with its line end, if any). A file whose bytes do not
    decode as text is not among them: what is proved of a file is proved of
    a [TextFile]. *)

Inductive file_entry : Type :=
| Unreadable
| TextFile (lines : list string).

Definition open_r (fs : gmap string file_entry) (file_path : string)
  : M (list string) :=
  match fs !! file_path with
  | None => raise (FileNotFoundError file_path)
  | Some Unreadable => raise (OSError file_path)
  | Some (TextFile lines) => mret lines
  end.

(** ** The class [FileBasedModbusDataStore] *)

Record FileBasedModbusDataStore : Type := {
  response_dir : string;
  dummy_mode : bool
}.

(** [__init__(self, response_dir='responses', dummy_mode=False)] *)
Definition init (dummy : bool) : FileBasedModbusDataStore :=
  {| response_dir := "responses"; dummy_mode := dummy |}.

Module Store.
Import Py Crc.

(** [payload.extend([(value >> 8) & 0xFF, value & 0xFF])] *)
Definition extend_value (payload : list Z) (value : Z) : list Z :=
  payload ++ [Z.land (Z.shiftr value 8) 0xFF; Z.land value 0xFF].

(** The list [payload] of [format_modbus_response] when it is rendered. *)
Definition response_payload (slave_address function_code : Z)
    (values : list Z) : list Z :=
  let byte_count := len values * 2 in
  let payload := [slave_address; function_code; byte_count] in
  let payload := fold_left extend_value values payload in
  let crc := calculate_crc payload in
  payload ++ [Z.land crc 0xFF; Z.land (Z.shiftr crc 8) 0xFF].

(** [format_modbus_response(self, slave_address, function_code, values)] *)
Definition format_modbus_response (slave_address function_code : Z)
    (values : list Z) : string :=
  join " " (map format_02X (response_payload slave_address function_code values)).

(** The list comprehension of [validate_file_response]:
    [[int(line.strip(), 16) for line in f if line.strip().startswith('0x')]] *)
Fixpoint hex_values_of (lines : list string) : M (list Z) :=
  match lines with
  | [] => mret []
  | line :: rest =>
      if startswith "0x" (strip line) then
        match int16 (strip line) with
        | Some v => vs ← hex_values_of rest; mret (v :: vs)
        | None => raise (ValueError (strip line))
        end
      else hex_values_of rest
  end.

Section Methods.
Context (fs : gmap string file_entry).
Context (super_getValues : Z → Z → Z → outcome (option (list Z))).
Context (self : FileBasedModbusDataStore).

(** [os.path.join(self.response_dir, str(register_address))] *)
Definition file_path_of (register_address : Z) : string :=
  os_path_join (response_dir self) (str register_address).

(** [validate_file_response(self, register_address, count)] *)
Definition validate_file_response (register_address count : Z)
  : M (option (list Z)) :=
  let file_path := file_path_of register_address in
  try_except
    (f ← open_r fs file_path;
     hex_values ← hex_values_of f;
     if len hex_values <? count then
       tell (Log WARNING
               (InsufficientData register_address count (len hex_values)));;
       mret None
     else
       tell (Log INFO
               (RequestForRegister register_address count (len hex_values)));;
       mret (Some (slice_to hex_values count)))
    (λ e, match e with
          | FileNotFoundError _ =>
              Some (tell (Log WARNING (NoResponseFile register_address));;
                    mret None)
          | ValueError _ =>
              Some (tell (Log ERROR (ErrorParsingFile file_path e));;
                    mret None)
          | OSError _ => None
          end).

(** [getValues(self, fx, address, count=1)] *)
Definition getValues (fx address count : Z) : M (option (list Z)) :=
  tell (Log INFO (ReceivedRequest fx address count));;
  if (fx =? 3) || (fx =? 4) then
    values ← validate_file_response address count;
    match values with
    | Some vs =>
        tell (CallFormat 1 fx vs);;
        let full_response := format_modbus_response 1 fx vs in
        if negb (dummy_mode self) then
          tell (Log INFO (FullResponse full_response));;
          mret (Some vs)
        else
          tell (Log INFO (FullResponseNotSent full_response));;
          mret None
    | None => mret None
    end
  else
    tell (CallSuper fx address count);;
    lift (super_getValues fx address count).

End Methods.
End Store.

(** ** The vocabulary of the specification *)

Module Spec.
Import Py Store.

(** An unsigned 8-bit value. *)
Definition is_byte (x : Z) : Prop := 0 ≤ x < 256.

(** [fits n z]: [z] is an unsigned number of [n] bits. *)
Definition fits (n z : Z) : Prop := 0 ≤ z < 2 ^ n.

(** A register word as two bytes, high byte first. *)
Definition big_endian_word (v : Z) : list Z := [(v / 256) mod 256; v mod 256].

(** The frame the specification describes, from its parts. *)
Definition frame_body (slave_address function_code : Z) (values : list Z)
  : list Z :=
  [slave_address; function_code; 2 * len values]
  ++ concat (map big_endian_word values).

(** A line is kept when its trimmed form begins with ["0x"]. *)
Definition kept (line : string) : bool := startswith "0x" (strip line).

Definition kept_lines (lines : list string) : list string :=
  List.filter kept lines.

(** What a kept line parses to, if it does. *)
Definition parse_line (line : string) : option Z := int16 (strip line).

(** The values of the kept lines that parse, in file order. *)
Definition parsed_values (lines : list string) : list Z :=
  omap parse_line (kept_lines lines).

(** Every kept line parses. *)
Definition all_parse (lines : list string) : Prop :=
  Forall (λ line, is_Some (parse_line line)) (kept_lines lines).

(** The three ways in which a lookup misses. *)
Inductive lookup_failure (fs : gmap string file_entry)
    (self : FileBasedModbusDataStore) (address count : Z) : Prop :=
| Miss_not_found :
    fs !! file_path_of self address = None →
    lookup_failure fs self address count
| Miss_insufficient lines :
    fs !! file_path_of self address = Some (TextFile lines) →
    all_parse lines →
    len (parsed_values lines) < count →
    lookup_failure fs self address count
| Miss_malformed lines :
    fs !! file_path_of self address = Some (TextFile lines) →
    ¬ all_parse lines →
    lookup_failure fs self address count.

(** The record that reports the rendered frame: its wording tells whether
    the frame is handed to the transport. *)
Definition response_record (self : FileBasedModbusDataStore)
    (full_response : string) : event :=
  Log INFO (if dummy_mode self
            then FullResponseNotSent full_response
            else FullResponse full_response).

End Spec.

(** ** The text of response files and of rendered frames *)

Module Text.
Import Py.

(** A string of white space only. *)
Fixpoint blank (s : string) : bool :=
  match s with
  | EmptyString => true
  | String c rest => isspace c && blank rest
  end.

(** [padded line line']: [line'] is [line] between two blank strings. *)
Definition padded (line line' : string) : Prop :=
  ∃ l r, blank l = true ∧ blank r = true ∧ line' = (l ++ line ++ r)%string.

(** The number that a string of hexadecimal digits denotes, most
    significant digit first, continuing from [acc]. *)
Fixpoint hex_value (acc : Z) (s : string) : Z :=
  match s with
  | EmptyString => acc
  | String c rest =>
      hex_value (16 * acc + default 0 (hex_digit c)) rest
  end.

(** Strings of upper-case hexadecimal digits. *)
Fixpoint upper_hex_digits (s : string) : bool :=
  match s with
  | EmptyString => true
  | String c rest =>
      match hex_digit c with
      | Some d => Ascii.eqb c (upper_hex_char d) && upper_hex_digits rest
      | None => false
      end
  end.
(** The steps of [int16], named. *)
Definition sign_split (s1 : string) : Z * string :=
  match s1 with
  | String "+" rest => (1, rest)
  | String "-" rest => (-1, rest)
  | _ => (1, s1)
  end.

Definition prefix_strip (s2 : string) : string :=
  match s2 with
  | String "0" (String "x" rest) | String "0" (String "X" rest) =>
      match rest with
      | String "_" rest' => rest'
      | _ => rest
      end
  | _ => s2
  end.

Definition int16_tail (sign : Z) (s3 : string) : option Z :=
  if startswith "_" s3 then None
  else
    match scan_hex s3 false false 0 with
    | Some (v, true, rest) =>
        match skip_spaces rest with
        | EmptyString => Some (sign * v)
        | String _ _ => None
        end
    | _ => None
    end.

(** A line of a response file that holds [v]: ["0x"] and the digits that
    [format_modbus_response] would print for it. *)
Definition hex_line (v : Z) : string := ("0x" ++ format_02X v)%string.
End Text.

(** ** A response directory to run the code on *)

Module Example.

Definition responses : gmap string file_entry :=
  {[ "responses/40001" := TextFile ["0x0A"; "0x14"; "0x1E"; "0x28"];
     "responses/40002" := TextFile ["0xAB"; "comment"; ""; "0x10"];
     "responses/40003" := TextFile ["0x0001"; "0xZZ"; "0x0003"];
     "responses/40004" := TextFile ["0x12345"];
     "responses/40005" := Unreadable ]}.

(** An inherited handler that answers every request with one register. *)
Definition fallback (fx address count : Z) : outcome (option (list Z)) :=
  Returns (Some [fx + address + count]).

End Example.

(** * Properties *)

(** ** Bounds and the reference CRC *)

Section CrcTheory.
Import Crc Spec.

Lemma fits_mono n m z : n ≤ m → fits n z → fits m z.
Proof.
  intros Hnm [Hz Hlt]. split; [done|].
  eapply Z.lt_le_trans; [exact Hlt|].
  apply Z.pow_le_mono_r; lia.
Qed.

Lemma fits_testbit n z :
  0 ≤ n → 0 ≤ z → (∀ i, n ≤ i → Z.testbit z i = false) → fits n z.
Proof.
  intros Hn Hz Hbits. split; [done|].
  destruct (Z.eq_dec z 0) as [->|Hnz]; [apply Z.pow_pos_nonneg; lia|].
  apply Z.log2_lt_pow2; [lia|].
  destruct (Z.lt_ge_cases (Z.log2 z) n) as [|Hge]; [done|].
  specialize (Hbits _ Hge). rewrite Z.bit_log2 in Hbits by lia. done.
Qed.

Lemma testbit_fits n z i : fits n z → n ≤ i → Z.testbit z i = false.
Proof.
  intros [Hz Hlt] Hi.
  destruct (Z.eq_dec z 0) as [->|Hnz]; [apply Z.bits_0|].
  apply Z.bits_above_log2; [done|].
  assert (Z.log2 z < n); [|lia].
  apply Z.log2_lt_pow2; lia.
Qed.

Lemma fits_lxor n a b : 0 ≤ n → fits n a → fits n b → fits n (Z.lxor a b).
Proof.
  intros Hn Ha Hb. apply fits_testbit; [done| |].
  - apply Z.lxor_nonneg. destruct Ha, Hb. lia.
  - intros i Hi. rewrite Z.lxor_spec.
    by rewrite (testbit_fits n a), (testbit_fits n b).
Qed.

Lemma fits_shiftr1 n z : 0 ≤ n → fits (n + 1) z → fits n (Z.shiftr z 1).
Proof.
  intros Hn [Hz Hlt]. rewrite Z.shiftr_div_pow2 by lia.
  rewrite Z.pow_add_r in Hlt by lia. change (2 ^ 1) with 2 in *.
  split; [apply Z.div_pos; lia|].
  apply Z.div_lt_upper_bound; lia.
Qed.

Lemma crc_shift_fits n crc : 16 ≤ n → fits (n + 1) crc → fits n (crc_shift crc).
Proof.
  intros Hn Hc. unfold crc_shift.
  pose proof (fits_shiftr1 n crc ltac:(lia) Hc) as Hs.
  destruct (_ =? 0); [done|].
  apply fits_lxor; [lia|done|].
  apply (fits_mono 16); [done|]. split; reflexivity || done.
Qed.

Lemma crc_shift_iter_fits k n crc :
  16 ≤ n → fits (n + Z.of_nat k) crc → fits n (Nat.iter k crc_shift crc).
Proof.
  revert n. induction k as [|k IH]; intros n Hn Hc; simpl.
  - by rewrite Z.add_0_r in Hc.
  - apply crc_shift_fits; [done|]. apply IH; [lia|].
    by replace (n + 1 + Z.of_nat k) with (n + Z.of_nat (S k)) by lia.
Qed.

Lemma crc_update_fits n crc x :
  16 ≤ n → fits (n + 8) crc → fits (n + 8) x → fits n (crc_update crc x).
Proof.
  intros Hn Hc Hx. unfold crc_update.
  apply crc_shift_iter_fits; [done|]. apply fits_lxor; [lia|done..].
Qed.

Lemma crc_update_byte_fits m crc x :
  is_byte x → fits (16 + 8 * Z.of_nat m) crc →
  fits (16 + 8 * Z.of_nat (pred m)) (crc_update crc x).
Proof.
  intros Hx Hc. destruct m as [|m]; simpl pred.
  - apply crc_update_fits; [lia| |].
    + eapply fits_mono; [|exact Hc]. lia.
    + apply (fits_mono 8); [lia|]. exact Hx.
  - apply crc_update_fits; [lia| |].
    + by replace (16 + 8 * Z.of_nat m + 8) with (16 + 8 * Z.of_nat (S m)) by lia.
    + apply (fits_mono 8); [lia|]. exact Hx.
Qed.

Lemma fold_crc_update_fits data m crc :
  Forall is_byte data → fits (16 + 8 * Z.of_nat m) crc →
  fits (16 + 8 * Z.of_nat (m - length data)) (fold_left crc_update data crc).
Proof.
  intros Hd. revert m crc. induction Hd as [|x data Hx Hd IH]; intros m crc Hc; simpl.
  - by rewrite Nat.sub_0_r.
  - replace (m - S (length data))%nat with (pred m - length data)%nat by lia.
    apply IH. by apply crc_update_byte_fits.
Qed.

Lemma calculate_crc_fits data : Forall is_byte data → fits 16 (calculate_crc data).
Proof.
  intros Hd. unfold calculate_crc.
  pose proof (fold_crc_update_fits data 0 0xFFFF Hd) as H.
  simpl in H. apply H. split; reflexivity || done.
Qed.

Lemma crc_shift_round crc : crc_shift crc = CrcReference.round crc.
Proof.
  unfold crc_shift, CrcReference.round.
  rewrite Z.shiftr_div_pow2 by lia. change (2 ^ 1) with 2.
  change 1 with (Z.ones 1) at 1. rewrite Z.land_ones by lia. change (2 ^ 1) with 2.
  rewrite Zodd_mod. 
  destruct (Z.eqb_spec (crc mod 2) 0) as [->|Hne]; [done|].
  destruct (Z.eqb_spec (crc mod 2) 1) as [|Hne1]; [done|].
  pose proof (Z.mod_pos_bound crc 2). lia.
Qed.

Lemma iter_crc_shift_rounds k crc : Nat.iter k crc_shift crc = CrcReference.rounds k crc.
Proof.
  revert crc. induction k as [|k IH]; intros crc; [done|].
  rewrite Nat.iter_succ_r. simpl. by rewrite crc_shift_round, IH.
Qed.

Lemma lxor_low8 acc b : is_byte b → Z.lxor acc b = CrcReference.xor_low8 acc b.
Proof.
  intros Hb. unfold CrcReference.xor_low8.
  rewrite (Z.div_mod (Z.lxor acc b) 256) at 1 by lia.
  f_equal.
  - f_equal. change 256 with (2 ^ 8). rewrite <- !Z.shiftr_div_pow2 by lia.
    rewrite Z.shiftr_lxor. rewrite (Z.shiftr_div_pow2 b) by lia.
    rewrite (Z.div_small b) by exact Hb. apply Z.lxor_0_r.
  - change 256 with (2 ^ 8). apply Z.bits_inj'. intros i Hi.
    rewrite Z.lxor_spec. destruct (Z.lt_ge_cases i 8) as [Hlo|Hhi].
    + by rewrite !Z.mod_pow2_bits_low, Z.lxor_spec by lia.
    + rewrite !Z.mod_pow2_bits_high by lia.
      by rewrite (testbit_fits 8 b i Hb Hhi).
Qed.

Lemma fold_crc_reference data crc :
  Forall is_byte data →
  fold_left crc_update data crc = CrcReference.crc16_from crc data.
Proof.
  intros Hd. revert crc. induction Hd as [|x data Hx Hd IH]; intros crc; [done|].
  simpl. rewrite IH. unfold crc_update.
  by rewrite iter_crc_shift_rounds, lxor_low8.
Qed.

End CrcTheory.

(** ** The frame of [format_modbus_response] *)

Section FrameTheory.
Import Py Crc Store Spec.

Lemma land_shiftr_high_byte v : Z.land (Z.shiftr v 8) 0xFF = (v / 256) mod 256.
Proof.
  rewrite Z.shiftr_div_pow2 by lia. change 0xFF with (Z.ones 8).
  by rewrite Z.land_ones by lia.
Qed.

Lemma land_low_byte v : Z.land v 0xFF = v mod 256.
Proof. change 0xFF with (Z.ones 8). by rewrite Z.land_ones by lia. Qed.

Lemma extend_value_word payload v :
  extend_value payload v = payload ++ big_endian_word v.
Proof.
  unfold extend_value, big_endian_word.
  by rewrite land_shiftr_high_byte, land_low_byte.
Qed.

Lemma fold_extend_value values payload :
  fold_left extend_value values payload
  = payload ++ concat (map big_endian_word values).
Proof.
  revert payload. induction values as [|v values IH]; intros payload; simpl.
  - by rewrite app_nil_r.
  - rewrite IH, extend_value_word. by rewrite <- app_assoc.
Qed.

Lemma big_endian_word_bytes v : Forall is_byte (big_endian_word v).
Proof.
  unfold big_endian_word, is_byte.
  repeat constructor; apply Z.mod_pos_bound; lia.
Qed.

Lemma words_bytes values : Forall is_byte (concat (map big_endian_word values)).
Proof.
  induction values as [|v values IH]; [constructor|].
  rewrite map_cons, concat_cons.
  apply Forall_app_2; [apply big_endian_word_bytes|done].
Qed.

Lemma words_length values :
  length (concat (map big_endian_word values)) = (2 * length values)%nat.
Proof. induction values as [|v values IH]; simpl; lia. Qed.

Lemma response_payload_body slave_address function_code values :
  response_payload slave_address function_code values
  = let body := frame_body slave_address function_code values in
    let crc := calculate_crc body in
    body ++ [crc mod 256; (crc / 256) mod 256].
Proof.
  unfold response_payload, frame_body. cbv zeta. rewrite fold_extend_value.
  replace (len values * 2) with (2 * len values) by lia.
  by rewrite land_shiftr_high_byte, land_low_byte.
Qed.

Lemma fold_left_cons_eq {A B} (f : A → B → A) x l a :
  fold_left f (x :: l) a = fold_left f l (f a x).
Proof. reflexivity. Qed.

Lemma fold_left_nil_eq {A B} (f : A → B → A) a : fold_left f [] a = a.
Proof. reflexivity. Qed.

Lemma crc_update_byte_fits16 crc x :
  is_byte x → fits 16 crc → fits 16 (crc_update crc x).
Proof.
  intros Hx Hc. apply crc_update_fits; [lia|..].
  - apply (fits_mono 16); [lia|done].
  - apply (fits_mono 8); [lia|exact Hx].
Qed.

Lemma fold_crc_update_fits16 data crc :
  Forall is_byte data → fits (16 + 8 * Z.of_nat (length data)) crc →
  fits 16 (fold_left crc_update data crc).
Proof.
  intros Hd Hc.
  pose proof (fold_crc_update_fits data (length data) crc Hd Hc) as H.
  rewrite Nat.sub_diag in H.
  replace (16 + 8 * Z.of_nat 0) with 16 in H by lia. exact H.
Qed.

Lemma fits_16_init : fits 16 0xFFFF.
Proof. unfold fits. lia. Qed.

Lemma frame_body_crc_fits slave_address function_code values :
  is_byte slave_address → is_byte function_code →
  fits 16 (calculate_crc (frame_body slave_address function_code values)).
Proof.
  intros Hs Hf. unfold calculate_crc, frame_body.
  rewrite fold_left_app, !fold_left_cons_eq, fold_left_nil_eq.
  apply fold_crc_update_fits16; [apply words_bytes|].
  rewrite words_length.
  apply crc_update_fits; [lia|..].
  - apply (fits_mono 16); [lia|].
    do 2 (apply crc_update_byte_fits16; [done|]). apply fits_16_init.
  - unfold len. split; [lia|].
    eapply Z.lt_le_trans; [apply (Z.pow_gt_lin_r 2); lia|].
    apply Z.pow_le_mono_r; lia.
Qed.

End FrameTheory.

(** ** The lookup of [validate_file_response] *)

Section LookupTheory.
Import Py Store Spec.

Lemma kept_lines_cons line lines :
  kept_lines (line :: lines)
  = if kept line then line :: kept_lines lines else kept_lines lines.
Proof. reflexivity. Qed.

Lemma all_parse_cons_kept line lines :
  kept line = true →
  all_parse (line :: lines) ↔ is_Some (parse_line line) ∧ all_parse lines.
Proof.
  intros Hk. unfold all_parse. rewrite kept_lines_cons, Hk.
  by rewrite Forall_cons.
Qed.

Lemma all_parse_cons_skipped line lines :
  kept line = false → all_parse (line :: lines) ↔ all_parse lines.
Proof. intros Hk. unfold all_parse. by rewrite kept_lines_cons, Hk. Qed.

#[local] Instance all_parse_dec lines : Decision (all_parse lines).
Proof. unfold all_parse. apply _. Defined.

Lemma hex_values_of_cons_skipped line lines :
  kept line = false → hex_values_of (line :: lines) = hex_values_of lines.
Proof. intros Hk. unfold kept in Hk. cbn [hex_values_of]. by rewrite Hk. Qed.

Lemma hex_values_of_cons_kept line lines :
  kept line = true →
  hex_values_of (line :: lines)
  = match parse_line line with
    | Some v => vs ← hex_values_of lines; mret (v :: vs)
    | None => raise (ValueError (strip line))
    end.
Proof. intros Hk. unfold kept in Hk. cbn [hex_values_of]. by rewrite Hk. Qed.


Lemma hex_values_of_parsed lines :
  all_parse lines → hex_values_of lines = ([], Returns (parsed_values lines)).
Proof.
  induction lines as [|line lines IH]; intros Hall; [done|].
  unfold parsed_values. rewrite kept_lines_cons.
  destruct (kept line) eqn:Hk.
  - apply all_parse_cons_kept in Hall as [[v Hv] Hall]; [|done].
    rewrite hex_values_of_cons_kept, Hv, IH by done.
    simpl. by rewrite Hv.
  - apply all_parse_cons_skipped in Hall; [|done].
    rewrite hex_values_of_cons_skipped by done. by apply IH.
Qed.

Lemma hex_values_of_malformed lines :
  ¬ all_parse lines →
  ∃ line, line ∈ kept_lines lines ∧ parse_line line = None
          ∧ hex_values_of lines = ([], Raises (ValueError (strip line))).
Proof.
  induction lines as [|line lines IH]; intros Hbad.
  - destruct Hbad. constructor.
  - destruct (kept line) eqn:Hk.
    + rewrite kept_lines_cons, Hk, hex_values_of_cons_kept by done.
      destruct (parse_line line) as [v|] eqn:Hv.
      * destruct IH as (bad & Hin & Hnone & Heq).
        { intros Hall. apply Hbad. apply all_parse_cons_kept; eauto. }
        exists bad. split; [by right|]. split; [done|]. by rewrite Heq.
      * exists line. split; [by left|]. done.
    + rewrite kept_lines_cons, Hk, hex_values_of_cons_skipped by done.
      apply IH. intros Hall. apply Hbad. by apply all_parse_cons_skipped.
Qed.

Lemma kept_lines_idemp lines : kept_lines (kept_lines lines) = kept_lines lines.
Proof.
  induction lines as [|line lines IH]; [done|].
  rewrite kept_lines_cons. destruct (kept line) eqn:Hk; [|done].
  by rewrite kept_lines_cons, Hk, IH.
Qed.


Section Validate.
Context (fs : gmap string file_entry) (self : FileBasedModbusDataStore).
Context (address count : Z).

Lemma validate_not_found :
  fs !! file_path_of self address = None →
  validate_file_response fs self address count
  = ([Log WARNING (NoResponseFile address)], Returns None).
Proof.
  intros Hfs. unfold validate_file_response, open_r. by rewrite Hfs.
Qed.

Lemma validate_unreadable :
  fs !! file_path_of self address = Some Unreadable →
  validate_file_response fs self address count
  = ([], Raises (OSError (file_path_of self address))).
Proof.
  intros Hfs. unfold validate_file_response, open_r. by rewrite Hfs.
Qed.

Lemma validate_parsed lines :
  fs !! file_path_of self address = Some (TextFile lines) →
  all_parse lines →
  validate_file_response fs self address count
  = if len (parsed_values lines) <? count
    then ([Log WARNING
             (InsufficientData address count (len (parsed_values lines)))],
          Returns None)
    else ([Log INFO
             (RequestForRegister address count (len (parsed_values lines)))],
          Returns (Some (slice_to (parsed_values lines) count))).
Proof.
  intros Hfs Hall. unfold validate_file_response, open_r. rewrite Hfs.
  cbn [mbind M_bind mret M_ret]. rewrite hex_values_of_parsed by done.
  cbn [mbind M_bind]. by destruct (_ <? _).
Qed.

Lemma validate_malformed lines :
  fs !! file_path_of self address = Some (TextFile lines) →
  ¬ all_parse lines →
  ∃ line, line ∈ kept_lines lines ∧ parse_line line = None
    ∧ validate_file_response fs self address count
      = ([Log ERROR (ErrorParsingFile (file_path_of self address)
                       (ValueError (strip line)))],
         Returns None).
Proof.
  intros Hfs Hbad.
  destruct (hex_values_of_malformed lines Hbad) as (line & Hin & Hnone & Heq).
  exists line. split; [done|]. split; [done|].
  unfold validate_file_response, open_r. rewrite Hfs.
  cbn [mbind M_bind mret M_ret]. by rewrite Heq.
Qed.

End Validate.

Lemma slice_to_take {A} (l : list A) n :
  0 ≤ n → slice_to l n = take (Z.to_nat n) l.
Proof. intros Hn. unfold slice_to. by destruct (Z.ltb_spec n 0); [lia|]. Qed.

End LookupTheory.

(** ** The dispatch of [getValues] *)

Section DispatchTheory.
Import Py Crc Store Spec.
Context (fs : gmap string file_entry).
Context (super_getValues : Z → Z → Z → outcome (option (list Z))).
Context (self : FileBasedModbusDataStore).

Lemma read_code_test fx : fx = 3 ∨ fx = 4 → (fx =? 3) || (fx =? 4) = true.
Proof. intros [->| ->]; reflexivity. Qed.

Lemma other_code_test fx : fx ≠ 3 → fx ≠ 4 → (fx =? 3) || (fx =? 4) = false.
Proof. intros H3 H4. apply orb_false_iff. split; by apply Z.eqb_neq. Qed.

Lemma getValues_read fx address count :
  fx = 3 ∨ fx = 4 →
  getValues fs super_getValues self fx address count
  = match validate_file_response fs self address count with
    | (t, Returns (Some vs)) =>
        (Log INFO (ReceivedRequest fx address count)
           :: t ++ [CallFormat 1 fx vs;
                    response_record self (format_modbus_response 1 fx vs)],
         Returns (if dummy_mode self then None else Some vs))
    | (t, Returns None) =>
        (Log INFO (ReceivedRequest fx address count) :: t, Returns None)
    | (t, Raises e) =>
        (Log INFO (ReceivedRequest fx address count) :: t, Raises e)
    end.
Proof.
  intros Hfx. unfold getValues. rewrite (read_code_test fx Hfx).
  destruct (validate_file_response fs self address count) as [t [[vs|]|e]];
    [|cbn [mbind M_bind mret M_ret tell]; by rewrite app_nil_r|reflexivity].
  unfold response_record. cbn [mbind M_bind mret M_ret tell].
  by destruct (dummy_mode self).
Qed.

Lemma getValues_other fx address count :
  fx ≠ 3 → fx ≠ 4 →
  getValues fs super_getValues self fx address count
  = ([Log INFO (ReceivedRequest fx address count);
      CallSuper fx address count],
     super_getValues fx address count).
Proof.
  intros H3 H4. unfold getValues. rewrite (other_code_test fx H3 H4).
  unfold lift. by destruct (super_getValues fx address count).
Qed.

End DispatchTheory.

Section LookupInversion.
Import Py Crc Store Spec.
Context (fs : gmap string file_entry) (self : FileBasedModbusDataStore).
Context (address count : Z).

Lemma elem_of_kept_lines line lines :
  line ∈ kept_lines lines ↔ line ∈ lines ∧ kept line = true.
Proof.
  unfold kept_lines. rewrite !list_elem_of_In. apply filter_In.
Qed.

Lemma malformed_not_all_parse lines line :
  line ∈ lines → kept line = true → parse_line line = None →
  ¬ all_parse lines.
Proof.
  intros Hin Hk Hnone Hall. unfold all_parse in Hall.
  rewrite Forall_forall in Hall.
  destruct (Hall line) as [v Hv]; [by apply elem_of_kept_lines|].
  congruence.
Qed.

(** A lookup that returns values read them from a file all of whose kept
    lines parse and that holds at least [count] of them. *)
Lemma validate_found_inv vs :
  result (validate_file_response fs self address count) = Returns (Some vs) →
  ∃ lines,
    fs !! file_path_of self address = Some (TextFile lines)
    ∧ all_parse lines
    ∧ count ≤ len (parsed_values lines)
    ∧ vs = slice_to (parsed_values lines) count
    ∧ trace (validate_file_response fs self address count)
      = [Log INFO
           (RequestForRegister address count (len (parsed_values lines)))].
Proof.
  intros Hfound.
  destruct (fs !! file_path_of self address) as [[|lines]|] eqn:Hfs.
  - by rewrite validate_unreadable in Hfound.
  - destruct (decide (all_parse lines)) as [Hall|Hbad].
    + rewrite (validate_parsed _ _ _ _ lines) in Hfound |- * by done.
      destruct (Z.ltb_spec (len (parsed_values lines)) count); [done|].
      exists lines. simpl in Hfound. by simplify_eq.
    + destruct (validate_malformed fs self address count lines Hfs Hbad)
        as (line & _ & _ & Heq). by rewrite Heq in Hfound.
  - by rewrite validate_not_found in Hfound.
Qed.

(** The lookup itself only logs. *)
Lemma validate_trace_logs e :
  e ∈ trace (validate_file_response fs self address count) →
  ∃ lvl msg, e = Log lvl msg.
Proof.
  destruct (fs !! file_path_of self address) as [[|lines]|] eqn:Hfs.
  - rewrite validate_unreadable by done. by intros ?%elem_of_nil.
  - destruct (decide (all_parse lines)) as [Hall|Hbad].
    + rewrite (validate_parsed _ _ _ _ lines) by done.
      destruct (_ <? _); intros ->%list_elem_of_singleton; eauto.
    + destruct (validate_malformed fs self address count lines Hfs Hbad)
        as (line & _ & _ & ->). intros ->%list_elem_of_singleton; eauto.
  - rewrite validate_not_found by done.
    intros ->%list_elem_of_singleton; eauto.
Qed.

End LookupInversion.

Section WordLookup.
Import Py Crc Store Spec.

Lemma words_lookup values i v :
  values !! i = Some v →
  concat (map big_endian_word values) !! (2 * i)%nat
    = Some ((v / 256) mod 256)
  ∧ concat (map big_endian_word values) !! (2 * i + 1)%nat
    = Some (v mod 256).
Proof.
  revert i. induction values as [|w values IH]; intros i Hi; [done|].
  destruct i as [|i].
  - simpl in Hi. by simplify_eq.
  - simpl in Hi. destruct (IH i Hi) as [Hhi Hlo].
    replace (2 * S i)%nat with (S (S (2 * i))) by lia.
    replace (S (S (2 * i)) + 1)%nat with (S (S (2 * i + 1))) by lia.
    done.
Qed.

Lemma response_payload_lookup slave_address function_code values i v :
  values !! i = Some v →
  response_payload slave_address function_code values !! (3 + 2 * i)%nat
    = Some (Z.land (Z.shiftr v 8) 0xFF)
  ∧ response_payload slave_address function_code values !! (4 + 2 * i)%nat
    = Some (Z.land v 0xFF).
Proof.
  intros Hi. destruct (words_lookup values i v Hi) as [Hhi Hlo].
  rewrite response_payload_body. cbv zeta. unfold frame_body.
  rewrite land_shiftr_high_byte, land_low_byte.
  assert (2 * i + 1 < length (concat (map big_endian_word values)))%nat
    as Hlen by (by apply lookup_lt_Some with (v mod 256)).
  split.
  - rewrite lookup_app_l by (rewrite length_app; simpl; lia).
    change (3 + 2 * i)%nat with (S (S (S (2 * i)))). exact Hhi.
  - rewrite lookup_app_l by (rewrite length_app; simpl; lia).
    replace (4 + 2 * i)%nat with (S (S (S (2 * i + 1)))) by lia. exact Hlo.
Qed.

End WordLookup.

(** * The claims *)

Section Claims.
Import Py Crc Store Spec.

(** C1. For a slave address and a function code that are bytes and any
    register values (in particular any non-empty sequence of them), the list
    that [format_modbus_response] renders is
    [[slave_address, function_code, byte_count, hi, lo, ..., crc_lo, crc_hi]]:
    the byte count is twice the number of values, each value gives its high
    byte and then its low byte, and the last two entries are the CRC of
    everything before them, a 16-bit number, low byte first. The string
    returned is that list in two-digit upper-case hexadecimal, blank
    separated. *)
Theorem format_modbus_response_frame slave_address function_code values :
  is_byte slave_address → is_byte function_code → values ≠ [] →
  let body :=
    [slave_address; function_code; 2 * len values]
    ++ concat (map big_endian_word values) in
  let crc := calculate_crc body in
  response_payload slave_address function_code values
    = body ++ [crc mod 256; crc / 256]
  ∧ format_modbus_response slave_address function_code values
    = join " " (map format_02X (body ++ [crc mod 256; crc / 256]))
  ∧ fits 16 crc
  ∧ crc = (crc mod 256) + 256 * (crc / 256)
  ∧ Forall is_byte (concat (map big_endian_word values))
  ∧ length (response_payload slave_address function_code values)
    = (2 * length values + 5)%nat.
Proof.
  intros Hs Hf _ body crc.
  pose proof (frame_body_crc_fits slave_address function_code values Hs Hf)
    as Hfits.
  fold body in Hfits. unfold frame_body in Hfits. fold body crc in Hfits.
  assert (response_payload slave_address function_code values
          = body ++ [crc mod 256; crc / 256]) as Hpayload.
  { rewrite response_payload_body. cbv zeta. unfold frame_body.
    fold body. fold crc. do 3 f_equal.
    apply Z.mod_small. destruct Hfits as [H0 H16].
    change (2 ^ 16) with (256 * 256) in H16.
    split; [apply Z.div_pos; lia|apply Z.div_lt_upper_bound; lia]. }
  split; [exact Hpayload|]. split.
  { unfold format_modbus_response. by rewrite Hpayload. }
  split; [exact Hfits|]. split.
  { rewrite Z.add_comm. apply Z.div_mod. lia. }
  split; [apply words_bytes|].
  rewrite Hpayload. unfold body. rewrite !length_app, words_length.
  simpl length. lia.
Qed.

Lemma format_modbus_response_frame_witness :
  response_payload 1 3 [171; 16] = [1; 3; 4; 0; 171; 0; 16; 0x8A; 0x1F]
  ∧ format_modbus_response 1 3 [171; 16] = "01 03 04 00 AB 00 10 8A 1F"%string.
Proof.
  destruct (format_modbus_response_frame 1 3 [171; 16])
    as (Hpayload & Hstring & _); [unfold is_byte; lia..|discriminate|].
  split; [rewrite Hpayload|rewrite Hstring]; vm_compute; reflexivity.
Defined.

(** C2. On every sequence of bytes [calculate_crc] is the CRC16 of Modbus
    RTU as the reference computes it (accumulator [0xFFFF], each byte
    exclusive-ored into the low eight bits, then eight rounds of halving
    with [0xA001] exclusive-ored in when the bit shifted out was set); the
    result is a 16-bit number, and on no bytes at all it is [0xFFFF]. *)
Theorem calculate_crc_reference data :
  Forall is_byte data →
  calculate_crc data = CrcReference.crc16 data
  ∧ fits 16 (calculate_crc data)
  ∧ calculate_crc [] = 0xFFFF.
Proof.
  intros Hd. split; [|split].
  - unfold calculate_crc, CrcReference.crc16. by apply fold_crc_reference.
  - by apply calculate_crc_fits.
  - reflexivity.
Qed.

Lemma calculate_crc_reference_witness :
  Forall is_byte [1; 3; 0; 0; 0; 10]
  ∧ calculate_crc [1; 3; 0; 0; 0; 10] = CrcReference.crc16 [1; 3; 0; 0; 0; 10]
  ∧ CrcReference.crc16 [1; 3; 0; 0; 0; 10] = 0xCDC5.
Proof.
  assert (Forall is_byte [1; 3; 0; 0; 0; 10]) as Hd.
  { repeat constructor; unfold is_byte; lia. }
  split; [exact Hd|].
  split; [apply (calculate_crc_reference _ Hd)|vm_compute; reflexivity].
Defined.

(** C3. A request with function code 3 or 4 whose lookup returns values:
    in dummy mode [getValues] returns [None], in live mode it returns
    exactly the values looked up; in both modes the log receives, after the
    records of the request and of the lookup, a record with the rendered
    frame ([format_modbus_response] with slave address 1, the function code
    of the request and those values). *)
Theorem getValues_found fs super_getValues self fx address count vs :
  fx = 3 ∨ fx = 4 →
  result (validate_file_response fs self address count) = Returns (Some vs) →
  let full_response := format_modbus_response 1 fx vs in
  let run := getValues fs super_getValues self fx address count in
  (dummy_mode self = true →
     result run = Returns None
     ∧ Log INFO (FullResponseNotSent full_response) ∈ trace run)
  ∧ (dummy_mode self = false →
     result run = Returns (Some vs)
     ∧ Log INFO (FullResponse full_response) ∈ trace run)
  ∧ trace run
    = Log INFO (ReceivedRequest fx address count)
        :: trace (validate_file_response fs self address count)
        ++ [CallFormat 1 fx vs; response_record self full_response].
Proof.
  intros Hfx Hfound full_response run. unfold run.
  rewrite (getValues_read fs super_getValues self fx address count Hfx).
  destruct (validate_file_response fs self address count) as [t r].
  simpl in Hfound. subst r. unfold trace, result, response_record. simpl.
  fold full_response.
  split; [|split; [|done]]; intros ->; (split; [done|]);
    apply elem_of_cons; right; apply elem_of_app; right;
    apply elem_of_cons; right; apply list_elem_of_singleton; done.
Qed.

Lemma getValues_found_witness :
  result (getValues Example.responses Example.fallback (init true) 3 40001 2)
    = Returns None
  ∧ Log INFO (FullResponseNotSent "01 03 04 00 0A 00 14 DA 3E")
    ∈ trace (getValues Example.responses Example.fallback (init true) 3 40001 2).
Proof.
  destruct (getValues_found Example.responses Example.fallback (init true)
              3 40001 2 [10; 20]) as (Hdummy & _);
    [by left|vm_compute; reflexivity|].
  exact (Hdummy eq_refl).
Defined.

(** The value a lookup returns when it misses, whatever the reason. *)
Lemma lookup_failure_none fs self address count :
  lookup_failure fs self address count →
  result (validate_file_response fs self address count) = Returns None.
Proof.
  intros [Hfs|lines Hfs Hall Hlt|lines Hfs Hbad].
  - by rewrite validate_not_found.
  - rewrite (validate_parsed _ _ _ _ lines) by done.
    by destruct (Z.ltb_spec (len (parsed_values lines)) count); [|lia].
  - destruct (validate_malformed fs self address count lines Hfs Hbad)
      as (line & _ & _ & ->). done.
Qed.

(** C4. With function code 3 or 4 and a lookup that misses (no file, too
    few values, or a kept line that does not parse) [getValues] returns
    [None], its trace has no call of the inherited handler, and the run is
    the same whatever that handler is. With any other function code
    [getValues] logs the request, calls the inherited handler with the
    arguments of the request and returns its outcome unchanged. *)
Theorem getValues_miss_or_delegate fs super_getValues self fx address count :
  (fx = 3 ∨ fx = 4 →
   lookup_failure fs self address count →
   let run := getValues fs super_getValues self fx address count in
   result run = Returns None
   ∧ (∀ fx' address' count', CallSuper fx' address' count' ∉ trace run)
   ∧ (∀ other, getValues fs other self fx address count = run))
  ∧ (fx ≠ 3 → fx ≠ 4 →
     getValues fs super_getValues self fx address count
     = ([Log INFO (ReceivedRequest fx address count);
         CallSuper fx address count],
        super_getValues fx address count)).
Proof.
  split.
  - intros Hfx Hmiss run. unfold run.
    pose proof (lookup_failure_none fs self address count Hmiss) as Hnone.
    split; [|split].
    + rewrite getValues_read by done.
      destruct (validate_file_response fs self address count) as [t r].
      simpl in Hnone. by subst r.
    + intros fx' address' count'. rewrite getValues_read by done.
      destruct Hmiss as [Hfs|lines Hfs Hall Hlt|lines Hfs Hbad].
      * rewrite validate_not_found by done. unfold trace. simpl.
        rewrite !not_elem_of_cons. repeat split; try discriminate.
        apply not_elem_of_nil.
      * rewrite (validate_parsed _ _ _ _ lines) by done.
        destruct (Z.ltb_spec (len (parsed_values lines)) count); [|lia].
        unfold trace. simpl.
        rewrite !not_elem_of_cons. repeat split; try discriminate.
        apply not_elem_of_nil.
      * destruct (validate_malformed fs self address count lines Hfs Hbad)
          as (line & _ & _ & ->). unfold trace. simpl.
        rewrite !not_elem_of_cons. repeat split; try discriminate.
        apply not_elem_of_nil.
    + intros other. by rewrite !getValues_read by done.
  - apply getValues_other.
Qed.

Lemma getValues_miss_or_delegate_witness :
  result (getValues Example.responses Example.fallback (init false) 3 40009 1)
    = Returns None
  ∧ getValues Example.responses Example.fallback (init false) 6 40001 2
    = ([Log INFO (ReceivedRequest 6 40001 2); CallSuper 6 40001 2],
       Returns (Some [40009])).
Proof.
  destruct (getValues_miss_or_delegate Example.responses Example.fallback
              (init false) 3 40009 1) as [Hmiss _].
  destruct (getValues_miss_or_delegate Example.responses Example.fallback
              (init false) 6 40001 2) as [_ Hother].
  split.
  - apply Hmiss; [by left|]. apply Miss_not_found. vm_compute. reflexivity.
  - apply Hother; discriminate.
Defined.

(** C5. A response file with a kept line (trimmed form beginning with
    ["0x"]) that [int(..., 16)] rejects: the lookup returns [None], so no
    value of the file is returned, and its log is one record at level
    [ERROR] that names the file and the rejected text. That outcome differs
    from the outcome of every lookup of a missing file, which logs at level
    [WARNING]. *)
Theorem validate_parse_error fs self address count lines line :
  fs !! file_path_of self address = Some (TextFile lines) →
  line ∈ lines → kept line = true → parse_line line = None →
  (∃ bad,
     bad ∈ lines ∧ kept bad = true ∧ parse_line bad = None
     ∧ validate_file_response fs self address count
       = ([Log ERROR (ErrorParsingFile (file_path_of self address)
                        (ValueError (strip bad)))],
          Returns None))
  ∧ (∀ fs' self' address' count',
       fs' !! file_path_of self' address' = None →
       validate_file_response fs' self' address' count'
       ≠ validate_file_response fs self address count).
Proof.
  intros Hfs Hin Hk Hnone.
  pose proof (malformed_not_all_parse lines line Hin Hk Hnone) as Hbad.
  destruct (validate_malformed fs self address count lines Hfs Hbad)
    as (bad & Hbadin & Hbadnone & Heq).
  apply elem_of_kept_lines in Hbadin as [Hbadin Hbadk].
  split; [by exists bad|].
  intros fs' self' address' count' Hfs'.
  rewrite Heq, validate_not_found by done. discriminate.
Qed.

Lemma validate_parse_error_witness :
  ∃ bad,
    validate_file_response Example.responses (init false) 40003 1
    = ([Log ERROR (ErrorParsingFile "responses/40003"
                     (ValueError (Py.strip bad)))],
       Returns None).
Proof.
  destruct (validate_parse_error Example.responses (init false) 40003 1
              ["0x0001"; "0xZZ"; "0x0003"] "0xZZ")
    as [(bad & _ & _ & _ & Heq) _];
    [vm_compute; reflexivity
    |apply elem_of_cons; right; apply elem_of_cons; by left
    |vm_compute; reflexivity..|].
  exists bad. exact Heq.
Defined.

(** C6. A response file all of whose kept lines parse and that holds at
    least [count] values, for [count >= 1]: the lookup returns exactly the
    first [count] parsed values, in file order; what follows them in the
    file is dropped. *)
Theorem validate_first_count fs self address count lines :
  fs !! file_path_of self address = Some (TextFile lines) →
  1 ≤ count →
  all_parse lines →
  count ≤ len (parsed_values lines) →
  validate_file_response fs self address count
  = ([Log INFO
        (RequestForRegister address count (len (parsed_values lines)))],
     Returns (Some (take (Z.to_nat count) (parsed_values lines))))
  ∧ len (take (Z.to_nat count) (parsed_values lines)) = count
  ∧ parsed_values lines
    = take (Z.to_nat count) (parsed_values lines)
      ++ drop (Z.to_nat count) (parsed_values lines).
Proof.
  intros Hfs Hcount Hall Hlen. split; [|split].
  - rewrite (validate_parsed _ _ _ _ lines) by done.
    destruct (Z.ltb_spec (len (parsed_values lines)) count); [lia|].
    by rewrite slice_to_take by lia.
  - unfold len in *. rewrite length_take. lia.
  - by rewrite take_drop.
Qed.

Lemma validate_first_count_witness :
  validate_file_response Example.responses (init false) 40001 2
  = ([Log INFO (RequestForRegister 40001 2 4)], Returns (Some [10; 20])).
Proof.
  destruct (validate_first_count Example.responses (init false) 40001 2
              ["0x0A"; "0x14"; "0x1E"; "0x28"]) as [Heq _];
    [vm_compute; reflexivity|lia| |vm_compute; discriminate|exact Heq].
  repeat constructor; vm_compute; eauto.
Defined.

(** C7. A response file that exists and yields fewer than [count] parsed
    values: the lookup returns [None] without raising, never a shorter list;
    when every kept line parses its log is the one [WARNING] record of
    insufficient data, with the count asked for and the count available.
    [getValues] answers a read request for it as it answers one for an
    address without a file: with [None]. *)
Theorem validate_insufficient fs super_getValues self fx address count lines :
  fs !! file_path_of self address = Some (TextFile lines) →
  len (parsed_values lines) < count →
  result (validate_file_response fs self address count) = Returns None
  ∧ (all_parse lines →
     validate_file_response fs self address count
     = ([Log WARNING
           (InsufficientData address count (len (parsed_values lines)))],
        Returns None))
  ∧ (fx = 3 ∨ fx = 4 →
     result (getValues fs super_getValues self fx address count)
     = Returns None
     ∧ result (getValues (delete (file_path_of self address) fs)
                 super_getValues self fx address count)
       = Returns None).
Proof.
  intros Hfs Hlt.
  assert (lookup_failure fs self address count) as Hmiss.
  { destruct (decide (all_parse lines)) as [Hall|Hbad].
    - by apply Miss_insufficient with lines.
    - by apply Miss_malformed with lines. }
  split; [by apply lookup_failure_none|]. split.
  - intros Hall. rewrite (validate_parsed _ _ _ _ lines) by done.
    by destruct (Z.ltb_spec (len (parsed_values lines)) count); [|lia].
  - intros Hfx. rewrite !getValues_read by done. split.
    + pose proof (lookup_failure_none fs self address count Hmiss) as Hnone.
      destruct (validate_file_response fs self address count) as [t r].
      simpl in Hnone. by subst r.
    + rewrite validate_not_found; [done|]. apply lookup_delete_eq.
Qed.

Lemma validate_insufficient_witness :
  validate_file_response Example.responses (init false) 40002 3
  = ([Log WARNING (InsufficientData 40002 3 2)], Returns None).
Proof.
  destruct (validate_insufficient Example.responses Example.fallback
              (init false) 3 40002 3 ["0xAB"; "comment"; ""; "0x10"])
    as (_ & Heq & _); [vm_compute; reflexivity..|].
  apply Heq. repeat constructor; vm_compute; eauto.
Defined.



(** C9. For [count >= 1] a lookup that returns values returns exactly
    [count] of them, hence at least one; and every call of
    [format_modbus_response] that [getValues] makes has a non-empty list of
    values. *)
Theorem lookup_found_nonempty fs super_getValues self fx address count :
  1 ≤ count →
  (∀ vs,
     result (validate_file_response fs self address count)
       = Returns (Some vs) →
     vs ≠ [] ∧ len vs = count)
  ∧ (∀ slave_address function_code vs,
       CallFormat slave_address function_code vs
         ∈ trace (getValues fs super_getValues self fx address count) →
       vs ≠ []).
Proof.
  intros Hcount.
  assert (∀ vs,
            result (validate_file_response fs self address count)
              = Returns (Some vs) →
            vs ≠ [] ∧ len vs = count) as Hfound.
  { intros vs Hvs.
    destruct (validate_found_inv fs self address count vs Hvs)
      as (lines & _ & _ & Hlen & -> & _).
    rewrite slice_to_take by lia. unfold len in *.
    assert (length (take (Z.to_nat count) (parsed_values lines))
            = Z.to_nat count) as Htake by (rewrite length_take; lia).
    split; [|lia]. intros Hnil. rewrite Hnil in Htake. simpl in Htake. lia. }
  split; [exact Hfound|].
  intros slave_address function_code vs.
  destruct (decide (fx = 3 ∨ fx = 4)) as [Hfx|Hfx].
  - rewrite getValues_read by done.
    pose proof (validate_trace_logs fs self address count) as Hlogs.
    specialize (Hfound) as Hne.
    destruct (validate_file_response fs self address count)
      as [t [[vs'|]|e]]; unfold trace in *; simpl in *.
    + intros [Heq|Hin]%elem_of_cons; [discriminate|].
      apply elem_of_app in Hin as [Hin|Hin].
      * destruct (Hlogs _ Hin) as (lvl & msg & Heq). discriminate.
      * apply elem_of_cons in Hin as [Heq|Hin].
        -- simplify_eq. by apply Hne.
        -- apply list_elem_of_singleton in Hin. discriminate.
    + intros [Heq|Hin]%elem_of_cons; [discriminate|].
      destruct (Hlogs _ Hin) as (lvl & msg & Heq). discriminate.
    + intros [Heq|Hin]%elem_of_cons; [discriminate|].
      destruct (Hlogs _ Hin) as (lvl & msg & Heq). discriminate.
  - rewrite getValues_other by (intros ->; apply Hfx; auto).
    unfold trace. simpl. rewrite !elem_of_cons.
    intros [?|[?|?%elem_of_nil]]; done.
Qed.

Lemma lookup_found_nonempty_witness :
  result (validate_file_response Example.responses (init false) 40001 2)
    = Returns (Some [10; 20])
  ∧ [10; 20] ≠ [] ∧ len [10; 20] = 2.
Proof.
  destruct (lookup_found_nonempty Example.responses Example.fallback
              (init false) 3 40001 2) as [Hfound _]; [lia|].
  assert (result (validate_file_response Example.responses (init false)
                    40001 2) = Returns (Some [10; 20])) as Hrun
    by (vm_compute; reflexivity).
  split; [exact Hrun|exact (Hfound _ Hrun)].
Defined.

Lemma lookup_map {A B} (f : A → B) (l : list A) i x :
  l !! i = Some x → map f l !! i = Some (f x).
Proof.
  revert i. induction l as [|y l IH]; intros i Hi; [done|].
  destruct i as [|i]; simpl in *; [by simplify_eq|by apply IH].
Qed.

(** C10. Parsed values are not checked against the range of a register. In
    live mode, for a read request that the file satisfies, a value [v] of
    [2^16] or more at position [i] of the file is returned unchanged at
    position [i]. The text that is logged is the rendering, entry by entry
    in two-digit hexadecimal and blank separated, of the list built for the
    frame; in that list, and so in that text, the value stands as the two
    bytes [(v >> 8) & 0xFF] and [v & 0xFF], which make up [v mod 2^16] and
    not [v]. *)
Theorem getValues_wide_value fs super_getValues self fx address count lines i v :
  fx = 3 ∨ fx = 4 →
  dummy_mode self = false →
  fs !! file_path_of self address = Some (TextFile lines) →
  all_parse lines →
  count ≤ len (parsed_values lines) →
  parsed_values lines !! i = Some v →
  Z.of_nat i < count →
  2 ^ 16 ≤ v →
  ∃ vs,
    result (getValues fs super_getValues self fx address count)
      = Returns (Some vs)
    ∧ vs !! i = Some v
    ∧ Log INFO
        (FullResponse (join " " (map format_02X (response_payload 1 fx vs))))
        ∈ trace (getValues fs super_getValues self fx address count)
    ∧ format_modbus_response 1 fx vs
      = join " " (map format_02X (response_payload 1 fx vs))
    ∧ response_payload 1 fx vs !! (3 + 2 * i)%nat
        = Some (Z.land (Z.shiftr v 8) 0xFF)
    ∧ response_payload 1 fx vs !! (4 + 2 * i)%nat
        = Some (Z.land v 0xFF)
    ∧ map format_02X (response_payload 1 fx vs) !! (3 + 2 * i)%nat
        = Some (format_02X (Z.land (Z.shiftr v 8) 0xFF))
    ∧ map format_02X (response_payload 1 fx vs) !! (4 + 2 * i)%nat
        = Some (format_02X (Z.land v 0xFF))
    ∧ 256 * Z.land (Z.shiftr v 8) 0xFF + Z.land v 0xFF = v mod 2 ^ 16
    ∧ v mod 2 ^ 16 ≠ v.
Proof.
  intros Hfx Hlive Hfs Hall Hlen Hi Hlt Hwide.
  exists (take (Z.to_nat count) (parsed_values lines)).
  assert (take (Z.to_nat count) (parsed_values lines) !! i = Some v) as Hvi.
  { rewrite lookup_take_lt by lia. exact Hi. }
  rewrite getValues_read by done.
  rewrite (validate_parsed _ _ _ _ lines) by done.
  destruct (Z.ltb_spec (len (parsed_values lines)) count); [lia|].
  rewrite slice_to_take by lia. unfold response_record. rewrite Hlive.
  unfold result, trace. cbn [fst snd].
  split; [done|]. split; [exact Hvi|]. split.
  { unfold format_modbus_response.
    apply elem_of_cons; right. apply elem_of_cons; right.
    apply elem_of_cons; right. by apply list_elem_of_singleton. }
  split; [reflexivity|].
  destruct (response_payload_lookup 1 fx _ i v Hvi) as [Hhi Hlo].
  split; [exact Hhi|]. split; [exact Hlo|].
  split; [by apply lookup_map|]. split; [by apply lookup_map|].
  rewrite land_shiftr_high_byte, land_low_byte.
  change (2 ^ 16) with (256 * 256) in *.
  split.
  - rewrite Z.rem_mul_r by lia. lia.
  - pose proof (Z.mod_pos_bound v (256 * 256)). lia.
Qed.

Lemma getValues_wide_value_witness :
  result (getValues Example.responses Example.fallback (init false) 4 40004 1)
    = Returns (Some [0x12345])
  ∧ Log INFO (FullResponse "01 04 02 23 45 61 F3")
      ∈ trace (getValues Example.responses Example.fallback (init false)
                 4 40004 1)
  ∧ format_modbus_response 1 4 [0x12345] = "01 04 02 23 45 61 F3"%string
  ∧ response_payload 1 4 [0x12345] !! 3%nat = Some 0x23
  ∧ response_payload 1 4 [0x12345] !! 4%nat = Some 0x45
  ∧ map format_02X (response_payload 1 4 [0x12345]) !! 3%nat
      = Some "23"%string
  ∧ map format_02X (response_payload 1 4 [0x12345]) !! 4%nat
      = Some "45"%string.
Proof.
  destruct (getValues_wide_value Example.responses Example.fallback
              (init false) 4 40004 1 ["0x12345"] 0 0x12345)
    as (vs & Hres & Hvs & Hlog & Htext & Hhi & Hlo & Hthi & Htlo & _);
    [by right|reflexivity|vm_compute; reflexivity
    |repeat constructor; vm_compute; eauto
    |vm_compute; discriminate|vm_compute; reflexivity|lia|lia|].
  assert (vs = [0x12345]) as ->.
  { vm_compute in Hres. by injection Hres as <-. }
  split; [exact Hres|].
  split; [exact Hlog|].
  split; [rewrite Htext; vm_compute; reflexivity|].
  split; [exact Hhi|]. split; [exact Hlo|].
  split; [exact Hthi|exact Htlo].
Defined.

End Claims.

(** * Further properties of the code *)

(** ** The CRC of a frame with its trailer *)

Section CrcResidue.
Import Py Crc Store Spec.

Lemma round_even x : CrcReference.round (2 * x) = x.
Proof.
  unfold CrcReference.round. rewrite Z.odd_mul. simpl.
  rewrite Z.mul_comm. apply Z.div_mul. lia.
Qed.

Lemma rounds_shift k x : CrcReference.rounds k (2 ^ Z.of_nat k * x) = x.
Proof.
  induction k as [|k IH]; [simpl; lia|].
  replace (2 ^ Z.of_nat (S k) * x) with (2 * (2 ^ Z.of_nat k * x)).
  - simpl CrcReference.rounds. by rewrite round_even.
  - rewrite Nat2Z.inj_succ, Z.pow_succ_r by lia. lia.
Qed.

Lemma crc_update_low_byte crc :
  fits 16 crc → crc_update crc (Z.land crc 0xFF) = crc / 256.
Proof.
  intros Hc. unfold crc_update. rewrite iter_crc_shift_rounds.
  rewrite land_low_byte.
  rewrite lxor_low8 by (apply Z.mod_pos_bound; lia).
  unfold CrcReference.xor_low8. rewrite Z.lxor_nilpotent, Z.add_0_r.
  apply (rounds_shift 8).
Qed.

Lemma crc_update_self crc : crc_update crc crc = 0.
Proof.
  unfold crc_update. rewrite Z.lxor_nilpotent, iter_crc_shift_rounds.
  apply (rounds_shift 8 0).
Qed.

Lemma crc_trailer_residue crc :
  fits 16 crc →
  fold_left crc_update [Z.land crc 0xFF; Z.land (Z.shiftr crc 8) 0xFF] crc = 0.
Proof.
  intros Hc. rewrite !fold_left_cons_eq, fold_left_nil_eq.
  rewrite crc_update_low_byte by done.
  rewrite land_shiftr_high_byte.
  rewrite (Z.mod_small (crc / 256)).
  - apply crc_update_self.
  - destruct Hc as [H0 H16]. change (2 ^ 16) with (256 * 256) in H16.
    split; [apply Z.div_pos; lia|apply Z.div_lt_upper_bound; lia].
Qed.

(** X1. A message of bytes followed by its CRC, low byte first, has CRC
    zero: the check that a receiver of Modbus RTU runs on a frame. *)
Theorem calculate_crc_residue data :
  Forall is_byte data →
  let crc := calculate_crc data in
  calculate_crc (data ++ [Z.land crc 0xFF; Z.land (Z.shiftr crc 8) 0xFF]) = 0.
Proof.
  intros Hd crc. unfold calculate_crc at 1. rewrite fold_left_app.
  apply crc_trailer_residue. by apply calculate_crc_fits.
Qed.

(** X2. The list that [format_modbus_response] renders passes that check:
    its CRC is zero, for a slave address and a function code that are bytes
    and any values, however many. *)
Theorem response_payload_residue slave_address function_code values :
  is_byte slave_address → is_byte function_code →
  calculate_crc (response_payload slave_address function_code values) = 0.
Proof.
  intros Hs Hf.
  pose proof (frame_body_crc_fits slave_address function_code values Hs Hf)
    as Hfits.
  unfold response_payload. cbv zeta. rewrite fold_extend_value.
  replace (len values * 2) with (2 * len values) by lia.
  fold (frame_body slave_address function_code values).
  unfold calculate_crc at 1. rewrite fold_left_app.
  by apply crc_trailer_residue.
Qed.

End CrcResidue.

(** ** Detection of a corrupted byte *)

Section CrcInjective.
Import Py Crc Store Spec.

Lemma fits_15_half x : fits 16 x → fits 15 (x / 2).
Proof.
  intros [H0 H16]. change (2 ^ 16) with (2 * 2 ^ 15) in H16.
  split; [apply Z.div_pos; lia|apply Z.div_lt_upper_bound; lia].
Qed.

Lemma lxor_poly_bit15 x : fits 15 x → Z.testbit (Z.lxor x 0xA001) 15 = true.
Proof.
  intros Hx. rewrite Z.lxor_spec, (testbit_fits 15 x 15 Hx) by lia.
  reflexivity.
Qed.

Lemma lxor_cancel_r x y k : Z.lxor x k = Z.lxor y k → x = y.
Proof.
  intros H. rewrite <- (Z.lxor_0_r x), <- (Z.lxor_0_r y).
  rewrite <- (Z.lxor_nilpotent k), <- !Z.lxor_assoc. by rewrite H.
Qed.

Lemma round_inj a b :
  fits 16 a → fits 16 b →
  CrcReference.round a = CrcReference.round b → a = b.
Proof.
  intros Ha Hb. unfold CrcReference.round.
  pose proof (fits_15_half a Ha) as Ha2.
  pose proof (fits_15_half b Hb) as Hb2.
  pose proof (Z.div_mod a 2 ltac:(lia)) as Da.
  pose proof (Z.div_mod b 2 ltac:(lia)) as Db.
  rewrite Zmod_odd in Da, Db.
  destruct (Z.odd a), (Z.odd b); intros H.
  - apply lxor_cancel_r in H. lia.
  - pose proof (lxor_poly_bit15 _ Ha2) as Hbit. rewrite H in Hbit.
    by rewrite (testbit_fits 15 _ 15 Hb2) in Hbit by lia.
  - pose proof (lxor_poly_bit15 _ Hb2) as Hbit. rewrite <- H in Hbit.
    by rewrite (testbit_fits 15 _ 15 Ha2) in Hbit by lia.
  - lia.
Qed.

Lemma round_fits x : fits 16 x → fits 16 (CrcReference.round x).
Proof.
  intros Hx. rewrite <- crc_shift_round. apply crc_shift_fits; [lia|].
  apply (fits_mono 16); [lia|done].
Qed.

Lemma rounds_fits k x : fits 16 x → fits 16 (CrcReference.rounds k x).
Proof.
  revert x. induction k as [|k IH]; intros x Hx; [done|].
  simpl. apply IH. by apply round_fits.
Qed.

Lemma rounds_inj k a b :
  fits 16 a → fits 16 b →
  CrcReference.rounds k a = CrcReference.rounds k b → a = b.
Proof.
  revert a b. induction k as [|k IH]; intros a b Ha Hb H; [done|].
  simpl in H. apply IH in H; [|by apply round_fits..].
  by apply round_inj.
Qed.

Lemma is_byte_fits16 x : is_byte x → fits 16 x.
Proof. intros Hx. apply (fits_mono 8); [lia|exact Hx]. Qed.

(** For a fixed byte the step of the outer loop is one-to-one on 16-bit
    accumulators. *)
Lemma crc_update_inj_crc a b x :
  fits 16 a → fits 16 b → is_byte x →
  crc_update a x = crc_update b x → a = b.
Proof.
  intros Ha Hb Hx. unfold crc_update. rewrite !iter_crc_shift_rounds.
  intros H. apply rounds_inj in H.
  - by apply lxor_cancel_r in H.
  - apply fits_lxor; [lia|done|by apply is_byte_fits16].
  - apply fits_lxor; [lia|done|by apply is_byte_fits16].
Qed.

(** For a fixed 16-bit accumulator it is one-to-one on bytes. *)
Lemma crc_update_inj_byte crc x y :
  fits 16 crc → is_byte x → is_byte y →
  crc_update crc x = crc_update crc y → x = y.
Proof.
  intros Hc Hx Hy. unfold crc_update. rewrite !iter_crc_shift_rounds.
  intros H. apply rounds_inj in H.
  - rewrite (Z.lxor_comm crc x), (Z.lxor_comm crc y) in H.
    by apply lxor_cancel_r in H.
  - apply fits_lxor; [lia|done|by apply is_byte_fits16].
  - apply fits_lxor; [lia|done|by apply is_byte_fits16].
Qed.

Lemma fold_crc_update_inj data a b :
  Forall is_byte data → fits 16 a → fits 16 b →
  fold_left crc_update data a = fold_left crc_update data b → a = b.
Proof.
  intros Hd. revert a b.
  induction Hd as [|x data Hx Hd IH]; intros a b Ha Hb H; [done|].
  rewrite !fold_left_cons_eq in H.
  apply IH in H; [|by apply crc_update_byte_fits16..].
  by apply crc_update_inj_crc in H.
Qed.

(** X3. [calculate_crc] tells apart two messages of bytes that differ in
    exactly one byte. *)
Theorem calculate_crc_detects_byte prefix x y suffix :
  Forall is_byte prefix → Forall is_byte suffix →
  is_byte x → is_byte y → x ≠ y →
  calculate_crc (prefix ++ x :: suffix) ≠ calculate_crc (prefix ++ y :: suffix).
Proof.
  intros Hp Hs Hx Hy Hne. unfold calculate_crc.
  rewrite !fold_left_app, !fold_left_cons_eq. intros H.
  pose proof (calculate_crc_fits prefix Hp) as Hc. unfold calculate_crc in Hc.
  apply fold_crc_update_inj in H; [|done|by apply crc_update_byte_fits16..].
  by apply crc_update_inj_byte in H.
Qed.

End CrcInjective.

(** ** Paths and addresses *)

Section Paths.
Import Py Crc Store Spec.

Lemma str_inj a b : str a = str b → a = b.
Proof.
  unfold str. intros H. apply DecimalZ.to_int_inj.
  assert (∀ z, Z.to_int z ≠ Decimal.Pos Decimal.Nil
               ∧ Z.to_int z ≠ Decimal.Neg Decimal.Nil) as Hnn.
  { intros [|p|p]; simpl; split; try discriminate;
      intros [=Hp]; by apply Unsigned.to_uint_nonnil in Hp. }
  destruct (Hnn a) as [Ha1 Ha2], (Hnn b) as [Hb1 Hb2].
  pose proof (NilZero.isi _ Ha1 Ha2) as Ia.
  pose proof (NilZero.isi _ Hb1 Hb2) as Ib.
  rewrite H in Ia. congruence.
Qed.

Lemma str_not_absolute z : startswith "/" (str z) = false.
Proof.
  unfold str. destruct (Z.to_int z) as [d|d]; [|reflexivity].
  destruct d; reflexivity.
Qed.

Lemma append_inj_r (a b c : string) : (a ++ b = a ++ c)%string → b = c.
Proof. induction a as [|ch a IH]; simpl; [done|]. intros [=H]. auto. Qed.

Lemma os_path_join_inj dir a b :
  os_path_join dir (str a) = os_path_join dir (str b) → a = b.
Proof.
  unfold os_path_join. rewrite !str_not_absolute.
  destruct (_ || _); intros H; apply append_inj_r in H.
  - by apply str_inj.
  - apply (append_inj_r "/") in H. by apply str_inj.
Qed.

Lemma file_path_of_inj self a b :
  file_path_of self a = file_path_of self b → a = b.
Proof. apply os_path_join_inj. Qed.

Lemma validate_ext fs fs' self address count :
  fs !! file_path_of self address = fs' !! file_path_of self address →
  validate_file_response fs self address count
  = validate_file_response fs' self address count.
Proof. intros H. unfold validate_file_response, open_r. by rewrite H. Qed.

Lemma getValues_ext fs fs' super_getValues self fx address count :
  fs !! file_path_of self address = fs' !! file_path_of self address →
  getValues fs super_getValues self fx address count
  = getValues fs' super_getValues self fx address count.
Proof.
  intros H. unfold getValues.
  by rewrite (validate_ext fs fs' self address count H).
Qed.

(** X10. The file of one address has no part in the answer for another
    address: writing or removing it changes nothing of the run. *)
Theorem getValues_other_address fs super_getValues self fx address count
    other entry :
  other ≠ address →
  getValues (<[file_path_of self other := entry]> fs)
    super_getValues self fx address count
  = getValues fs super_getValues self fx address count
  ∧ getValues (delete (file_path_of self other) fs)
      super_getValues self fx address count
    = getValues fs super_getValues self fx address count.
Proof.
  intros Hne.
  assert (file_path_of self other ≠ file_path_of self address) as Hpath.
  { intros H. by apply file_path_of_inj in H. }
  split; apply getValues_ext.
  - by rewrite lookup_insert_ne.
  - by rewrite lookup_delete_ne.
Qed.

(** X11. A store made by [__init__] with the default directory reads the
    registers of an address from ["responses/"] followed by the address in
    decimal, and no two addresses share a file, in any directory. *)
Theorem file_path_of_init dummy address :
  file_path_of (init dummy) address = ("responses/" ++ str address)%string
  ∧ ∀ self other,
      file_path_of self other = file_path_of self address → other = address.
Proof.
  split.
  - unfold file_path_of, os_path_join. rewrite str_not_absolute. reflexivity.
  - intros self other. apply file_path_of_inj.
Qed.

End Paths.

(** ** Exceptions and counts out of range *)

Section MoreLookup.
Import Py Crc Store Spec.

(** X4. Every entry of the rendered list is a byte exactly when the slave
    address and the function code are bytes and there are at most 127
    values: from 128 values on, the byte count [len(values) * 2] is not
    reduced to a byte. *)
Theorem response_payload_bytes slave_address function_code values :
  Forall is_byte (response_payload slave_address function_code values)
  ↔ is_byte slave_address ∧ is_byte function_code
    ∧ (length values < 128)%nat.
Proof.
  rewrite response_payload_body. cbv zeta. unfold frame_body.
  rewrite !Forall_app, !Forall_cons, !Forall_nil.
  pose proof (words_bytes values) as Hw.
  assert (∀ z, is_byte (z mod 256)) as Hmod
    by (intros z; apply Z.mod_pos_bound; lia).
  unfold is_byte at 3. unfold len. split.
  - intros [((Hs & Hf & Hc & _) & _) _]. repeat split; try apply Hs; try apply Hf; lia.
  - intros (Hs & Hf & Hn). repeat split; try apply Hs; try apply Hf;
      try apply Hmod; try done; lia.
Qed.

(** X5. The only exception that escapes [validate_file_response] is the
    failure of [open] on a path that exists but cannot be read;
    [FileNotFoundError] and [ValueError] never escape. *)
Theorem validate_raises_iff fs self address count e :
  result (validate_file_response fs self address count) = Raises e
  ↔ fs !! file_path_of self address = Some Unreadable
    ∧ e = OSError (file_path_of self address).
Proof.
  destruct (fs !! file_path_of self address) as [[|lines]|] eqn:Hfs.
  - rewrite validate_unreadable by done. simpl. split.
    + intros [= <-]. done.
    + intros [_ ->]. done.
  - assert (result (validate_file_response fs self address count) ≠ Raises e)
      as Hno.
    { destruct (decide (all_parse lines)) as [Hall|Hbad].
      - rewrite (validate_parsed _ _ _ _ lines) by done.
        by destruct (_ <? _).
      - destruct (validate_malformed fs self address count lines Hfs Hbad)
          as (line & _ & _ & ->). done. }
    split; [done|]. intros [[=] _].
  - rewrite validate_not_found by done. split; [done|]. intros [[=] _].
Qed.

(** X6. A read request (function code 3 or 4) for an address whose file
    cannot be opened raises that error out of [getValues], after the record
    of the request and nothing else; it is not answered with [None]. *)
Theorem getValues_unreadable fs super_getValues self fx address count :
  fx = 3 ∨ fx = 4 →
  fs !! file_path_of self address = Some Unreadable →
  getValues fs super_getValues self fx address count
  = ([Log INFO (ReceivedRequest fx address count)],
     Raises (OSError (file_path_of self address))).
Proof.
  intros Hfx Hfs. rewrite getValues_read by done.
  by rewrite validate_unreadable.
Qed.

(** X7. A count of zero or less is never found insufficient: on a file
    whose kept lines parse the lookup returns the empty list for [count = 0]
    and, for a negative [count], all values but the last [-count] (none if
    there are fewer). *)
Theorem validate_nonpositive_count fs self address count lines :
  fs !! file_path_of self address = Some (TextFile lines) →
  all_parse lines →
  count ≤ 0 →
  validate_file_response fs self address count
  = ([Log INFO
        (RequestForRegister address count (len (parsed_values lines)))],
     Returns (Some (take (Z.to_nat (if count =? 0 then 0
                                    else len (parsed_values lines) + count))
                      (parsed_values lines)))).
Proof.
  intros Hfs Hall Hcount. rewrite (validate_parsed _ _ _ _ lines) by done.
  destruct (Z.ltb_spec (len (parsed_values lines)) count) as [Hlt|_].
  { unfold len in Hlt. lia. }
  unfold slice_to.
  destruct (Z.eqb_spec count 0) as [->|Hne]; [done|].
  by destruct (Z.ltb_spec count 0); [|lia].
Qed.

(** X8. A read request with [count = 0] for a file whose kept lines parse
    is a hit: [format_modbus_response] is called with no values, the frame is
    logged, and live mode returns the empty list. *)
Theorem getValues_zero_count fs super_getValues self fx address lines :
  fx = 3 ∨ fx = 4 →
  fs !! file_path_of self address = Some (TextFile lines) →
  all_parse lines →
  getValues fs super_getValues self fx address 0
  = ([Log INFO (ReceivedRequest fx address 0);
      Log INFO (RequestForRegister address 0 (len (parsed_values lines)));
      CallFormat 1 fx [];
      response_record self (format_modbus_response 1 fx [])],
     Returns (if dummy_mode self then None else Some [])).
Proof.
  intros Hfx Hfs Hall. rewrite getValues_read by done.
  rewrite (validate_nonpositive_count fs self address 0 lines) by done.
  reflexivity.
Qed.

(** X9. In dummy mode a read request (function code 3 or 4) never returns
    values, whatever the response directory holds: it returns [None] or
    raises the error of an unreadable file. *)
Theorem getValues_dummy_never_values fs super_getValues self fx address count :
  fx = 3 ∨ fx = 4 →
  dummy_mode self = true →
  result (getValues fs super_getValues self fx address count) = Returns None
  ∨ result (getValues fs super_getValues self fx address count)
    = Raises (OSError (file_path_of self address)).
Proof.
  intros Hfx Hdummy. rewrite getValues_read by done.
  pose proof (validate_raises_iff fs self address count) as Hraise.
  destruct (validate_file_response fs self address count) as [t [[vs|]|e]];
    simpl in *.
  - rewrite Hdummy. by left.
  - by left.
  - right. destruct (Hraise e) as [[_ ->] _]; done.
Qed.

(** X16. On a response file that opens and reads as text the lookup
    returns [None] exactly when a kept line does not parse or fewer than
    [count] values parse; otherwise it returns [hex_values[:count]]. *)
Theorem validate_text_file_none_iff fs self address count lines :
  fs !! file_path_of self address = Some (TextFile lines) →
  (result (validate_file_response fs self address count) = Returns None
   ↔ ¬ all_parse lines ∨ len (parsed_values lines) < count)
  ∧ (all_parse lines → count ≤ len (parsed_values lines) →
     result (validate_file_response fs self address count)
     = Returns (Some (slice_to (parsed_values lines) count))).
Proof.
  intros Hfs. split; [split|].
  - intros Hnone. destruct (decide (all_parse lines)) as [Hall|Hbad]; [|by left].
    rewrite (validate_parsed _ _ _ _ lines) in Hnone by done.
    destruct (Z.ltb_spec (len (parsed_values lines)) count); [by right|done].
  - intros Hmiss. apply lookup_failure_none.
    destruct (decide (all_parse lines)) as [Hall|Hbad].
    + destruct Hmiss as [Hbad|Hlt]; [done|].
      by apply Miss_insufficient with lines.
    + by apply Miss_malformed with lines.
  - intros Hall Hlen. rewrite (validate_parsed _ _ _ _ lines) by done.
    by destruct (Z.ltb_spec (len (parsed_values lines)) count); [lia|].
Qed.

End MoreLookup.

(** ** White space in response files *)

Section Whitespace.
Import Py Crc Store Spec Text.

Lemma lstrip_blank s : blank s = true → lstrip s = EmptyString.
Proof.
  induction s as [|c s IH]; [done|]. simpl.
  intros [Hc Hs]%andb_true_iff. rewrite Hc. auto.
Qed.

Lemma rstrip_blank s : blank s = true → rstrip s = EmptyString.
Proof.
  induction s as [|c s IH]; [done|]. simpl.
  intros [Hc Hs]%andb_true_iff. by rewrite IH, Hc.
Qed.

Lemma lstrip_app_blank l s : blank l = true → lstrip (l ++ s) = lstrip s.
Proof.
  induction l as [|c l IH]; [done|]. simpl.
  intros [Hc Hl]%andb_true_iff. rewrite Hc. auto.
Qed.

Lemma rstrip_app_blank s r : blank r = true → rstrip (s ++ r) = rstrip s.
Proof.
  intros Hr. induction s as [|c s IH]; simpl.
  - by apply rstrip_blank.
  - by rewrite IH.
Qed.

Lemma lstrip_app s r :
  lstrip (s ++ r)
  = match lstrip s with
    | EmptyString => lstrip r
    | String _ _ => (lstrip s ++ r)%string
    end.
Proof.
  induction s as [|c s IH]; simpl; [done|].
  destruct (isspace c); [exact IH|done].
Qed.

Lemma strip_padded line line' : padded line line' → strip line' = strip line.
Proof.
  intros (l & r & Hl & Hr & ->). unfold strip.
  rewrite lstrip_app_blank by done. rewrite lstrip_app.
  destruct (lstrip line) as [|c s] eqn:Hline.
  - rewrite lstrip_blank by done. reflexivity.
  - by rewrite rstrip_app_blank.
Qed.

Lemma hex_values_of_strip lines lines' :
  Forall2 (λ line line', strip line' = strip line) lines lines' →
  hex_values_of lines' = hex_values_of lines.
Proof.
  induction 1 as [|line line' lines lines' Hs _ IH]; [done|].
  cbn [hex_values_of]. by rewrite Hs, IH.
Qed.

(** X12. White space around the lines of a response file, line ends
    included, has no part in the answer. *)
Theorem getValues_padding fs super_getValues self fx address count lines lines' :
  fs !! file_path_of self address = Some (TextFile lines) →
  Forall2 padded lines lines' →
  getValues (<[file_path_of self address := TextFile lines']> fs)
    super_getValues self fx address count
  = getValues fs super_getValues self fx address count.
Proof.
  intros Hfs Hpad. unfold getValues, validate_file_response, open_r.
  rewrite Hfs, lookup_insert_eq. cbn [mbind M_bind mret M_ret].
  rewrite (hex_values_of_strip lines lines'); [done|].
  eapply Forall2_impl; [exact Hpad|]. apply strip_padded.
Qed.

End Whitespace.

(** ** The sign of the values *)

Section NonNegative.
Import Py Crc Store Spec.

Lemma hex_digit_range c d : hex_digit c = Some d → 0 ≤ d < 16.
Proof.
  unfold hex_digit, digit_value.
  repeat case_match; intros; simplify_eq; lia.
Qed.

Lemma scan_hex_nonneg s prev_us any acc v any' rest :
  0 ≤ acc → scan_hex s prev_us any acc = Some (v, any', rest) → 0 ≤ v.
Proof.
  revert prev_us any acc.
  induction s as [|c s IH]; intros prev_us any acc Hacc; simpl.
  - destruct prev_us; intros; simplify_eq. done.
  - destruct (Ascii.eqb c "_").
    + destruct prev_us; [done|]. by apply IH.
    + destruct (hex_digit c) as [d|] eqn:Hd.
      * apply IH. apply hex_digit_range in Hd. lia.
      * destruct prev_us; intros; simplify_eq. done.
Qed.

Lemma startswith_0x s :
  startswith "0x" s = true → ∃ rest, s = String "0" (String "x" rest).
Proof.
  destruct s as [|c s]; [done|]. cbn [startswith].
  destruct (Ascii.eqb_spec "0" c) as [<-|]; [|done].
  destruct s as [|d rest]; [done|]. cbn [startswith].
  destruct (Ascii.eqb_spec "x" d) as [<-|]; [|done]. eauto.
Qed.

Lemma int16_0x_nonneg s v :
  startswith "0x" s = true → int16 s = Some v → 0 ≤ v.
Proof.
  intros (rest & ->)%startswith_0x. unfold int16.
  cbn [transform]. 
  change (to_ascii_digit_or_space "0") with "0"%char.
  change (to_ascii_digit_or_space "x") with "x"%char.
  cbn [skip_spaces].
  change (c_isspace "0") with false. cbv iota.
  set (s3 := match transform rest with
             | String "_" rest' => rest'
             | _ => transform rest
             end).
  destruct (startswith "_" s3); [done|].
  destruct (scan_hex s3 false false 0) as [[[v' any] rest']|] eqn:Hscan; [|done].
  destruct any; [|done]. destruct (skip_spaces rest'); [|done].
  intros [= <-]. apply scan_hex_nonneg in Hscan; lia.
Qed.

Lemma parsed_values_nonneg lines : Forall (λ v, 0 ≤ v) (parsed_values lines).
Proof.
  unfold parsed_values. apply Forall_forall. intros v Hv.
  apply list_elem_of_omap in Hv as (line & Hin & Hparse).
  apply elem_of_kept_lines in Hin as [_ Hk].
  by apply (int16_0x_nonneg (strip line)).
Qed.

(** X13. No register value that a read request returns is negative. *)
Theorem getValues_nonneg fs super_getValues self fx address count vs :
  fx = 3 ∨ fx = 4 →
  result (getValues fs super_getValues self fx address count)
    = Returns (Some vs) →
  Forall (λ v, 0 ≤ v) vs.
Proof.
  intros Hfx. rewrite getValues_read by done.
  pose proof (validate_found_inv fs self address count) as Hinv.
  destruct (validate_file_response fs self address count) as [t [[vs'|]|e]];
    simpl; [|done..].
  destruct (dummy_mode self); [done|]. intros [= <-].
  destruct (Hinv vs' eq_refl) as (lines & _ & _ & _ & -> & _).
  pose proof (parsed_values_nonneg lines) as Hnn.
  unfold slice_to. destruct (_ <? _); by apply Forall_take.
Qed.

End NonNegative.

(** ** Writing and reading back *)

Section RoundTrip.
Import Py Crc Store Spec Text.

Lemma upper_hex_char_cases c d :
  hex_digit c = Some d → Ascii.eqb c (upper_hex_char d) = true →
  c ∈ ["0"; "1"; "2"; "3"; "4"; "5"; "6"; "7"; "8"; "9";
       "A"; "B"; "C"; "D"; "E"; "F"]%char.
Proof.
  intros Hd Hc. apply Ascii.eqb_eq in Hc. subst c.
  pose proof (hex_digit_range _ _ Hd) as Hr.
  assert (d = 0 ∨ d = 1 ∨ d = 2 ∨ d = 3 ∨ d = 4 ∨ d = 5 ∨ d = 6 ∨ d = 7
          ∨ d = 8 ∨ d = 9 ∨ d = 10 ∨ d = 11 ∨ d = 12 ∨ d = 13 ∨ d = 14
          ∨ d = 15) as Hcases by lia.
  clear Hd Hr.
  repeat (destruct Hcases as [->|Hcases]); subst;
    vm_compute; repeat (first [by left | right]).
Qed.

Lemma upper_hex_char_digit d :
  0 ≤ d < 16 →
  hex_digit (upper_hex_char d) = Some d.
Proof.
  intros Hr.
  assert (d = 0 ∨ d = 1 ∨ d = 2 ∨ d = 3 ∨ d = 4 ∨ d = 5 ∨ d = 6 ∨ d = 7
          ∨ d = 8 ∨ d = 9 ∨ d = 10 ∨ d = 11 ∨ d = 12 ∨ d = 13 ∨ d = 14
          ∨ d = 15) as Hcases by lia.
  clear Hr. repeat (destruct Hcases as [->|Hcases]); subst; reflexivity.
Qed.

Lemma upper_hex_digits_head c rest :
  upper_hex_digits (String c rest) = true →
  c ∈ ["0"; "1"; "2"; "3"; "4"; "5"; "6"; "7"; "8"; "9";
       "A"; "B"; "C"; "D"; "E"; "F"]%char
  ∧ upper_hex_digits rest = true.
Proof.
  simpl. destruct (hex_digit c) as [d|] eqn:Hd; [|done].
  intros [Hc Hrest]%andb_true_iff. split; [|done].
  by apply upper_hex_char_cases with d.
Qed.

(** Case analysis on the head of a string of upper-case digits. *)
Ltac head_cases H :=
  apply upper_hex_digits_head in H as [H ?];
  repeat (apply elem_of_cons in H as [->|H]); [..|by apply elem_of_nil in H].

Lemma upper_hex_digits_app s t :
  upper_hex_digits (s ++ t) = upper_hex_digits s && upper_hex_digits t.
Proof.
  induction s as [|c s IH]; [done|]. simpl.
  destruct (hex_digit c); [|done]. by rewrite IH, andb_assoc.
Qed.

Lemma hex_value_app a s t :
  hex_value a (s ++ t) = hex_value (hex_value a s) t.
Proof. revert a. induction s as [|c s IH]; intros a; [done|]. apply IH. Qed.

Lemma scan_hex_digits ds any a :
  upper_hex_digits ds = true →
  scan_hex ds false any a
  = Some (hex_value a ds,
          match ds with EmptyString => any | String _ _ => true end,
          EmptyString).
Proof.
  revert any a. induction ds as [|c ds IH]; intros any a Hds; [done|].
  simpl in Hds. destruct (hex_digit c) as [d|] eqn:Hd; [|done].
  apply andb_true_iff in Hds as [_ Hds].
  cbn [scan_hex hex_value].
  destruct (Ascii.eqb_spec c "_") as [->|_]; [done|].
  rewrite Hd. simpl. rewrite IH by done. by destruct ds.
Qed.

Lemma transform_digits ds : upper_hex_digits ds = true → transform ds = ds.
Proof.
  induction ds as [|c ds IH]; [done|]. intros H.
  head_cases H; cbn [transform]; rewrite IH by done; reflexivity.
Qed.

Lemma rstrip_digits ds : upper_hex_digits ds = true → rstrip ds = ds.
Proof.
  induction ds as [|c ds IH]; [done|]. intros H.
  head_cases H; cbn [rstrip]; rewrite IH by done; by destruct ds.
Qed.

Lemma append_snoc_app (ds : string) c acc :
  ((ds ++ String c EmptyString) ++ acc = ds ++ String c acc)%string.
Proof.
  induction ds as [|d ds IH]; [reflexivity|].
  change (String d ((ds ++ String c EmptyString) ++ acc)
          = String d (ds ++ String c acc))%string.
  by rewrite IH.
Qed.

Lemma append_empty_r (s : string) : (s ++ EmptyString)%string = s.
Proof.
  induction s as [|d s IH]; [reflexivity|].
  change (String d (s ++ EmptyString) = String d s)%string. by rewrite IH.
Qed.

Lemma length_snoc (ds : string) c :
  String.length (ds ++ String c EmptyString) = S (String.length ds).
Proof.
  induction ds as [|d ds IH]; [reflexivity|].
  change (S (String.length (ds ++ String c EmptyString))
          = S (S (String.length ds))).
  by rewrite IH.
Qed.

Lemma upper_hex_fuel_digits fuel n acc :
  0 ≤ n < 16 ^ Z.of_nat (S fuel) →
  ∃ ds,
    upper_hex_fuel (S fuel) n acc = (ds ++ acc)%string
    ∧ upper_hex_digits ds = true
    ∧ ds ≠ EmptyString
    ∧ ∀ a, hex_value a ds = a * 16 ^ Z.of_nat (String.length ds) + n.
Proof.
  revert n acc. induction fuel as [|fuel IH]; intros n acc Hn;
    rewrite Nat2Z.inj_succ, Z.pow_succ_r in Hn by lia.
  all: change (upper_hex_fuel (S ?f) n acc)
         with (let acc' := String (upper_hex_char (n mod 16)) acc in
               if n / 16 =? 0 then acc'
               else upper_hex_fuel f (n / 16) acc').
  all: cbv zeta.
  all: pose proof (Z.mod_pos_bound n 16 ltac:(lia)) as Hmod.
  all: pose proof (Z.div_mod n 16 ltac:(lia)) as Hdiv.
  all: set (c := upper_hex_char (n mod 16)).
  all: assert (hex_digit c = Some (n mod 16)) as Hc
         by (by apply upper_hex_char_digit).
  all: destruct (Z.eqb_spec (n / 16) 0) as [Hz|Hnz].
  all: try (exists (String c EmptyString); split; [done|]; split;
            [simpl; rewrite Hc; fold c; by rewrite Ascii.eqb_refl|];
            split; [done|]; intros a; simpl; rewrite Hc; simpl; lia).
  destruct (IH (n / 16) (String c acc)) as (ds & Heq & Hds & Hne & Hval).
  { split; [apply Z.div_pos; lia|apply Z.div_lt_upper_bound; lia]. }
  exists (ds ++ String c EmptyString)%string. split.
  { by rewrite Heq, append_snoc_app. }
  split.
  { rewrite upper_hex_digits_app, Hds. simpl. rewrite Hc. fold c.
    by rewrite Ascii.eqb_refl. }
  split; [by destruct ds|].
  intros a. rewrite hex_value_app, Hval. simpl. rewrite Hc. simpl.
  rewrite length_snoc, Nat2Z.inj_succ, Z.pow_succ_r by lia. lia.
Qed.

Lemma upper_hex_digits_value n :
  0 ≤ n →
  upper_hex_digits (upper_hex n) = true
  ∧ upper_hex n ≠ EmptyString
  ∧ hex_value 0 (upper_hex n) = n.
Proof.
  intros Hn. unfold upper_hex.
  destruct (upper_hex_fuel_digits (Z.to_nat (Z.log2 n)) n EmptyString)
    as (ds & Heq & Hds & Hne & Hval).
  { split; [done|]. rewrite Nat2Z.inj_succ, Z2Nat.id by apply Z.log2_nonneg.
    destruct (Z.eq_dec n 0) as [->|Hnz]; [reflexivity|].
    eapply Z.lt_le_trans; [apply Z.log2_spec; lia|].
    change 16 with (2 ^ 4). rewrite <- Z.pow_mul_r by (pose proof (Z.log2_nonneg n); lia).
    apply Z.pow_le_mono_r; pose proof (Z.log2_nonneg n); lia. }
  rewrite Heq, append_empty_r.
  split; [done|]. split; [done|]. rewrite Hval. lia.
Qed.

Lemma int16_unfold s :
  int16 s
  = let '(sign, s2) := sign_split (skip_spaces (transform s)) in
    int16_tail sign (prefix_strip s2).
Proof. reflexivity. Qed.

Lemma skip_spaces_digits ds :
  upper_hex_digits ds = true → skip_spaces ds = ds.
Proof. destruct ds as [|c ds]; [done|]. intros H. head_cases H; reflexivity. Qed.

Lemma sign_split_digits ds :
  upper_hex_digits ds = true → sign_split ds = (1, ds).
Proof. destruct ds as [|c ds]; [done|]. intros H. head_cases H; reflexivity. Qed.

Lemma prefix_strip_digits ds :
  upper_hex_digits ds = true → prefix_strip ds = ds.
Proof.
  destruct ds as [|c ds]; [done|]. intros H. head_cases H; try reflexivity.
  destruct ds as [|d ds]; [reflexivity|].
  match goal with Hd : upper_hex_digits _ = true |- _ => head_cases Hd end;
    reflexivity.
Qed.

Lemma prefix_strip_0x ds :
  upper_hex_digits ds = true →
  prefix_strip (String "0" (String "x" ds)) = ds.
Proof. destruct ds as [|c ds]; [done|]. intros H. head_cases H; reflexivity. Qed.

Lemma int16_tail_digits sign ds :
  upper_hex_digits ds = true → ds ≠ EmptyString →
  int16_tail sign ds = Some (sign * hex_value 0 ds).
Proof.
  intros Hds Hne. unfold int16_tail.
  rewrite (scan_hex_digits ds false 0 Hds).
  destruct ds as [|c ds]; [done|].
  assert (startswith "_" (String c ds) = false) as ->; [|done].
  head_cases Hds; reflexivity.
Qed.

(** [int(s, 16)] on upper-case digits, bare, signed, or after ["0x"]. *)
Lemma int16_digits ds :
  upper_hex_digits ds = true → ds ≠ EmptyString →
  int16 ds = Some (hex_value 0 ds)
  ∧ int16 (String "-" ds) = Some (- hex_value 0 ds)
  ∧ int16 (String "0" (String "x" ds)) = Some (hex_value 0 ds).
Proof.
  intros Hds Hne. rewrite !int16_unfold. cbn [transform].
  change (to_ascii_digit_or_space "-") with "-"%char.
  change (to_ascii_digit_or_space "0") with "0"%char.
  change (to_ascii_digit_or_space "x") with "x"%char.
  rewrite transform_digits by done.
  change (skip_spaces (String "-" ds)) with (String "-" ds).
  change (skip_spaces (String "0" (String "x" ds)))
    with (String "0" (String "x" ds)).
  change (sign_split (String "-" ds)) with (-1, ds).
  change (sign_split (String "0" (String "x" ds)))
    with (1, String "0" (String "x" ds)).
  rewrite skip_spaces_digits, sign_split_digits by done. cbv beta iota zeta.
  rewrite prefix_strip_0x, prefix_strip_digits by done.
  rewrite !int16_tail_digits by done.
  repeat split; f_equal; lia.
Qed.

(** X14. What [f'{x:02X}'] prints for an integer, [int(..., 16)] reads
    back as that integer; in particular the digits are never cut short. *)
Theorem format_02X_int16 x : int16 (format_02X x) = Some x.
Proof.
  unfold format_02X. destruct (Z.ltb_spec x 0) as [Hneg|Hpos].
  - destruct (upper_hex_digits_value (- x)) as (Hds & Hne & Hval); [lia|].
    destruct (int16_digits _ Hds Hne) as (_ & Hminus & _).
    change ("-" ++ upper_hex (- x))%string with (String "-" (upper_hex (- x))).
    rewrite Hminus, Hval. f_equal. lia.
  - destruct (upper_hex_digits_value x Hpos) as (Hds & Hne & Hval).
    destruct (_ <? _)%nat.
    + change ("0" ++ upper_hex x)%string with (String "0" (upper_hex x)).
      assert (upper_hex_digits (String "0" (upper_hex x)) = true) as Hds0
        by (cbn [upper_hex_digits]; by rewrite Hds).
      destruct (int16_digits _ Hds0 ltac:(done)) as (Hbare & _).
      rewrite Hbare. f_equal. exact Hval.
    + destruct (int16_digits _ Hds Hne) as (Hbare & _).
      by rewrite Hbare, Hval.
Qed.

Lemma format_02X_digits v :
  0 ≤ v →
  upper_hex_digits (format_02X v) = true
  ∧ format_02X v ≠ EmptyString
  ∧ hex_value 0 (format_02X v) = v.
Proof.
  intros Hv. unfold format_02X.
  destruct (Z.ltb_spec v 0); [lia|].
  destruct (upper_hex_digits_value v Hv) as (Hds & Hne & Hval).
  destruct (_ <? _)%nat; [|done].
  change ("0" ++ upper_hex v)%string with (String "0" (upper_hex v)).
  split; [cbn [upper_hex_digits]; by rewrite Hds|]. split; [done|].
  exact Hval.
Qed.

Lemma hex_line_kept_parse v :
  0 ≤ v →
  strip (hex_line v) = hex_line v
  ∧ kept (hex_line v) = true
  ∧ parse_line (hex_line v) = Some v.
Proof.
  intros Hv. destruct (format_02X_digits v Hv) as (Hds & Hne & Hval).
  assert (strip (hex_line v) = hex_line v) as Hstrip.
  { unfold strip, hex_line.
    change ("0x" ++ format_02X v)%string
      with (String "0" (String "x" (format_02X v))).
    change (lstrip (String "0" (String "x" (format_02X v))))
      with (String "0" (String "x" (format_02X v))).
    cbn [rstrip]. rewrite rstrip_digits by done.
    by destruct (format_02X v). }
  split; [done|]. unfold kept, parse_line. rewrite Hstrip.
  split; [reflexivity|].
  destruct (int16_digits _ Hds Hne) as (_ & _ & H0x).
  unfold hex_line.
  change ("0x" ++ format_02X v)%string
    with (String "0" (String "x" (format_02X v))).
  by rewrite H0x, Hval.
Qed.

Lemma hex_values_of_hex_lines vs :
  Forall (λ v, 0 ≤ v) vs →
  hex_values_of (map hex_line vs) = ([], Returns vs).
Proof.
  induction 1 as [|v vs Hv _ IH]; [done|].
  destruct (hex_line_kept_parse v Hv) as (Hstrip & Hkept & Hparse).
  rewrite map_cons, hex_values_of_cons_kept, Hparse, IH by done.
  reflexivity.
Qed.

(** X15. A response file written from non-negative values, one line per
    value with ["0x"] and the digits that [format_modbus_response] prints, is
    read back as those values: the lookup returns the first [count] of
    them. *)
Theorem validate_hex_lines fs self address count vs :
  fs !! file_path_of self address = Some (TextFile (map hex_line vs)) →
  Forall (λ v, 0 ≤ v) vs →
  0 ≤ count ≤ len vs →
  validate_file_response fs self address count
  = ([Log INFO (RequestForRegister address count (len vs))],
     Returns (Some (take (Z.to_nat count) vs))).
Proof.
  intros Hfs Hvs Hcount. unfold validate_file_response, open_r.
  rewrite Hfs. cbn [mbind M_bind mret M_ret].
  rewrite hex_values_of_hex_lines by done. cbn [mbind M_bind].
  destruct (Z.ltb_spec (len vs) count); [lia|].
  by rewrite slice_to_take by lia.
Qed.

End RoundTrip.

(** ** Runs on the example directory *)

Section Runs.
Import Py Crc Store Spec Text.

Lemma calculate_crc_residue_witness :
  calculate_crc [1; 3; 0; 0; 0; 10; 0xC5; 0xCD] = 0.
Proof.
  apply (calculate_crc_residue [1; 3; 0; 0; 0; 10]).
  repeat constructor; unfold is_byte; lia.
Defined.

Lemma response_payload_residue_witness :
  calculate_crc (response_payload 1 3 [171; 16]) = 0.
Proof. apply response_payload_residue; unfold is_byte; lia. Defined.

Lemma calculate_crc_detects_byte_witness :
  calculate_crc [1; 3; 4; 0] ≠ calculate_crc [1; 3; 5; 0].
Proof.
  apply (calculate_crc_detects_byte [1; 3] 4 5 [0]);
    repeat constructor; unfold is_byte; lia.
Defined.

Lemma getValues_unreadable_witness :
  getValues Example.responses Example.fallback (init false) 3 40005 1
  = ([Log INFO (ReceivedRequest 3 40005 1)],
     Raises (OSError "responses/40005")).
Proof.
  apply (getValues_unreadable Example.responses Example.fallback
           (init false) 3 40005 1); [by left|vm_compute; reflexivity].
Defined.

Lemma validate_nonpositive_count_witness :
  validate_file_response Example.responses (init false) 40001 (-1)
  = ([Log INFO (RequestForRegister 40001 (-1) 4)],
     Returns (Some [10; 20; 30])).
Proof.
  apply (validate_nonpositive_count Example.responses (init false)
           40001 (-1) ["0x0A"; "0x14"; "0x1E"; "0x28"]);
    [vm_compute; reflexivity|repeat constructor; vm_compute; eauto|lia].
Defined.

Lemma getValues_zero_count_witness :
  getValues Example.responses Example.fallback (init false) 3 40001 0
  = ([Log INFO (ReceivedRequest 3 40001 0);
      Log INFO (RequestForRegister 40001 0 4);
      CallFormat 1 3 [];
      Log INFO (FullResponse "01 03 00 20 F0")],
     Returns (Some [])).
Proof.
  apply (getValues_zero_count Example.responses Example.fallback
           (init false) 3 40001 ["0x0A"; "0x14"; "0x1E"; "0x28"]);
    [by left|vm_compute; reflexivity|repeat constructor; vm_compute; eauto].
Defined.

Lemma getValues_dummy_never_values_witness :
  result (getValues Example.responses Example.fallback (init true) 4 40001 4)
    = Returns None
  ∨ result (getValues Example.responses Example.fallback (init true) 4 40001 4)
    = Raises (OSError "responses/40001").
Proof.
  apply (getValues_dummy_never_values Example.responses Example.fallback
           (init true) 4 40001 4); [by right|reflexivity].
Defined.

Lemma getValues_other_address_witness :
  getValues (<["responses/40002" := TextFile ["0x01"]]> Example.responses)
    Example.fallback (init false) 3 40001 2
  = getValues Example.responses Example.fallback (init false) 3 40001 2.
Proof.
  destruct (getValues_other_address Example.responses Example.fallback
              (init false) 3 40001 2 40002 (TextFile ["0x01"]))
    as [Hinsert _]; [lia|exact Hinsert].
Defined.

Lemma getValues_padding_witness :
  getValues
    (<["responses/40002"
       := TextFile [("  0xAB" ++ String "013" (String "010" ""))%string;
                    "comment"; ""; (String "009" "0x10 ")]]>
       Example.responses)
    Example.fallback (init false) 3 40002 2
  = getValues Example.responses Example.fallback (init false) 3 40002 2.
Proof.
  apply (getValues_padding Example.responses Example.fallback (init false)
           3 40002 2 ["0xAB"; "comment"; ""; "0x10"]);
    [vm_compute; reflexivity|].
  repeat constructor.
  - by exists "  "%string, (String "013" (String "010" "")).
  - by exists ""%string, ""%string.
  - by exists ""%string, ""%string.
  - by exists (String "009" ""), " "%string.
Defined.

Lemma getValues_nonneg_witness : Forall (λ v, 0 ≤ v) [10; 20].
Proof.
  apply (getValues_nonneg Example.responses Example.fallback (init false)
           3 40001 2); [by left|vm_compute; reflexivity].
Defined.

Lemma validate_hex_lines_witness :
  validate_file_response Example.responses (init false) 40001 3
  = ([Log INFO (RequestForRegister 40001 3 4)],
     Returns (Some [10; 20; 30])).
Proof.
  apply (validate_hex_lines Example.responses (init false) 40001 3
           [10; 20; 30; 40]);
    [vm_compute; reflexivity|repeat constructor; lia|unfold len; simpl; lia].
Defined.

Lemma validate_text_file_none_iff_witness :
  result (validate_file_response Example.responses (init false) 40002 3)
    = Returns None
  ∧ result (validate_file_response Example.responses (init false) 40002 2)
    = Returns (Some [0xAB; 0x10]).
Proof.
  destruct (validate_text_file_none_iff Example.responses (init false)
              40002 3 ["0xAB"; "comment"; ""; "0x10"]) as [[_ Hnone] _];
    [vm_compute; reflexivity|].
  destruct (validate_text_file_none_iff Example.responses (init false)
              40002 2 ["0xAB"; "comment"; ""; "0x10"]) as [_ Hsome];
    [vm_compute; reflexivity|].
  split.
  - apply Hnone. right. vm_compute. reflexivity.
  - apply Hsome; [repeat constructor; vm_compute; eauto
                 |vm_compute; discriminate].
Defined.

End Runs.
